(** * Audit project: the service layer and the audit-log insert paths

    A shallow embedding of
    - [app/services/compliance_service.py]   (module [Compliance]),
    - [app/services/ai_service.py]           (module [AI]),
    - [app/services/notification_service.py] (module [Notification]),
    - [audit_project/app/models/audit.py]    (module [Audit]),
    followed by the properties proved about them.

    Conventions of the embedding.
    - Values that the Python code leaves untyped ([Dict[str, Any]]) are
      values of [pyval], the JSON-like fragment of Python's objects.
    - A Python [float] is a rational [Q].  The code only adds a few
      two-digit constants, divides by a small count and compares with
      two-digit constants; the properties below never rest on a
      comparison that rounding could change.
    - A character of a [string] stands for one code point of a Python
      [str].
    - [datetime] values are microseconds on the time line ([Z]), a
      [timedelta] is a difference of two of them.
    - Effects live in the monad [M]: the clock, the logger, exceptions,
      and the mutable object a method works on ([self], or the stores
      behind the module globals [db] and [supabase]).  An exception
      leaves the world as it was when raised.
    - Library functions whose results no property inspects (MD5, JSON
      encoding, date formatting) are the fields of the class [PyLib]. *)

From Stdlib Require Import ZArith QArith Lia Lqa Ascii.
From stdpp Require Import base option list gmap strings sorting.

Local Open Scope Z_scope.

(** ** Python values *)

Module Py.

#[warnings="-register-all"]
Inductive pyval : Type :=
| PNone
| PBool (b : bool)
| PInt (n : Z)
| PFloat (q : Q)
| PStr (s : string)
| PList (l : list pyval)
| PDict (d : list (pyval * pyval)).

(** A [dict] keeps its items in insertion order. *)
Abbreviation pydict := (list (pyval * pyval)).

(** [type(v).__name__] *)
Definition type_name (v : pyval) : string :=
  match v with
  | PNone => "NoneType"
  | PBool _ => "bool"
  | PInt _ => "int"
  | PFloat _ => "float"
  | PStr _ => "str"
  | PList _ => "list"
  | PDict _ => "dict"
  end.

(** [bool(v)] *)
Definition truthy (v : pyval) : bool :=
  match v with
  | PNone => false
  | PBool b => b
  | PInt n => negb (n =? 0)
  | PFloat q => negb (Qeq_bool q 0)
  | PStr s => negb (String.eqb s "")
  | PList l => match l with [] => false | _ => true end
  | PDict d => match d with [] => false | _ => true end
  end.

(** Lists and dicts have no hash. *)
Definition hashable (v : pyval) : bool :=
  match v with
  | PList _ | PDict _ => false
  | _ => true
  end.

(** The number a [bool], [int] or [float] denotes. *)
Definition num_of (v : pyval) : option Q :=
  match v with
  | PBool b => Some (inject_Z (if b then 1 else 0))
  | PInt n => Some (inject_Z n)
  | PFloat q => Some q
  | _ => None
  end.

(** [a == b] on hashable values, as a dict or a set compares keys. *)
Definition key_eqb (a b : pyval) : bool :=
  match a, b with
  | PNone, PNone => true
  | PStr s, PStr t => String.eqb s t
  | _, _ =>
      match num_of a, num_of b with
      | Some x, Some y => Qeq_bool x y
      | _, _ => false
      end
  end.

(** [v == s] for a string literal [s]. *)
Definition eq_str (v : pyval) (s : string) : bool := key_eqb v (PStr s).

Fixpoint dict_lookup (d : pydict) (k : pyval) : option pyval :=
  match d with
  | [] => None
  | (k', v) :: d' => if key_eqb k' k then Some v else dict_lookup d' k
  end.

(** [k in d] for a string literal [k]. *)
Definition has_key (d : pydict) (k : string) : bool :=
  match dict_lookup d (PStr k) with Some _ => true | None => false end.

(** [d[k] = v]: an existing key keeps its place. *)
Fixpoint dict_set (d : pydict) (k v : pyval) : pydict :=
  match d with
  | [] => [(k, v)]
  | (k', v') :: d' =>
      if key_eqb k' k then (k', v) :: d' else (k', v') :: dict_set d' k v
  end.

(** [x in s] for a set (or the keys of a dict) held as a list. *)
Definition key_elem (x : pyval) (s : list pyval) : bool :=
  existsb (key_eqb x) s.

Fixpoint chars (s : string) : list pyval :=
  match s with
  | EmptyString => []
  | String c s' => PStr (String c EmptyString) :: chars s'
  end.

(** Exceptions raised by the modelled code; all derive from [Exception]. *)
Inductive exn : Type :=
| KeyError (key : string)
| TypeError (msg : string)
| AttributeError (msg : string)
| AIServiceError (msg : string)
| ComplianceServiceError (msg : string)
| NotificationServiceError (msg : string).

(** [str(e)] *)
Definition exn_str (e : exn) : string :=
  match e with
  | KeyError k => "'" +:+ k +:+ "'"
  | TypeError m | AttributeError m => m
  | AIServiceError m | ComplianceServiceError m
  | NotificationServiceError m => m
  end.

Inductive outcome (A : Type) : Type :=
| Ok (a : A)
| Raise (e : exn).
Arguments Ok {A} a.
Arguments Raise {A} e.

(** ** The world: clock, logger and the object the method runs on *)

Inductive level := DEBUG | INFO | WARNING | ERROR.

(** A log record: the literal text of the f-string with [{}] for each
    replacement field, and the values of the fields. *)
Record log_record := LogRecord {
  lr_level : level;
  lr_text : string;
  lr_args : list pyval
}.

(** [w_clock n] is what the [n]-th call of [datetime.now()] returns;
    [w_self] is the state of the mutable objects the code works on
    ([self], or the stores behind module globals). *)
Record world (St : Type) := World {
  w_clock : nat → Z;
  w_ticks : nat;
  w_log : list log_record;
  w_self : St
}.
Arguments World {St} _ _ _ _.
Arguments w_clock {St} _ _.
Arguments w_ticks {St} _.
Arguments w_log {St} _.
Arguments w_self {St} _.

(** A computation: it ends normally or by an exception, and in both
    cases leaves a world behind. *)
Definition M (St A : Type) : Type := world St → outcome A * world St.

Definition ret {St A} (a : A) : M St A := λ w, (Ok a, w).

Definition raise {St A} (e : exn) : M St A := λ w, (Raise e, w).

Definition bind {St A B} (m : M St A) (k : A → M St B) : M St B :=
  λ w, match m w with
       | (Ok a, w') => k a w'
       | (Raise e, w') => (Raise e, w')
       end.

(** [try: m  except Exception as e: h e] *)
Definition try_except {St A} (m : M St A) (h : exn → M St A) : M St A :=
  λ w, match m w with
       | (Ok a, w') => (Ok a, w')
       | (Raise e, w') => h e w'
       end.

(** [datetime.now()] *)
Definition now {St} : M St Z :=
  λ w, (Ok (w_clock w (w_ticks w)),
        World (w_clock w) (S (w_ticks w)) (w_log w) (w_self w)).

(** [logger.debug], [logger.info], [logger.warning], [logger.error] *)
Definition log {St} (l : level) (text : string) (args : list pyval)
  : M St unit :=
  λ w, (Ok tt,
        World (w_clock w) (w_ticks w) (w_log w ++ [LogRecord l text args])
              (w_self w)).

(** Read [self]. *)
Definition get_self {St} : M St St := λ w, (Ok (w_self w), w).

(** Assign to attributes of [self]. *)
Definition put_self {St} (s : St) : M St unit :=
  λ w, (Ok tt, World (w_clock w) (w_ticks w) (w_log w) s).

(** A pure step that may raise. *)
Definition lift {St A} (o : outcome A) : M St A := λ w, (o, w).

(** The world after [n] more clock readings and the log records [lg]. *)
Definition advance {St} (w : world St) (n : nat) (lg : list log_record)
  : world St :=
  World (w_clock w) (n + w_ticks w) (w_log w ++ lg) (w_self w).

Declare Scope py_scope.
Delimit Scope py_scope with py.
Notation "'let*' x ':=' m 'in' k" := (bind m (λ x, k))
  (at level 10, x pattern, m at level 100, k at level 200) : py_scope.
Notation "m ';;' k" := (bind m (λ _, k))
  (at level 100, k at level 200, right associativity) : py_scope.

(** [for x in l: s = body x s] *)
Fixpoint for_each {St A T} (l : list A) (body : A → T → M St T) (s : T)
  : M St T :=
  match l with
  | [] => ret s
  | x :: l' => bind (body x s) (for_each l' body)
  end.

(** [v[k]] for a string literal [k]. *)
Definition subscript (v : pyval) (k : string) : outcome pyval :=
  match v with
  | PDict d =>
      match dict_lookup d (PStr k) with
      | Some x => Ok x
      | None => Raise (KeyError k)
      end
  | _ => Raise (TypeError
                  ("'" +:+ type_name v +:+ "' object is not subscriptable"))
  end.

(** [v.get(k, dflt)] for a string literal [k]: only a dict has [get]. *)
Definition get_method (v : pyval) (k : string) (dflt : pyval)
  : outcome pyval :=
  match v with
  | PDict d => Ok (default dflt (dict_lookup d (PStr k)))
  | _ => Raise (AttributeError
                  ("'" +:+ type_name v +:+ "' object has no attribute 'get'"))
  end.

(** [len(v)] *)
Definition len (v : pyval) : outcome Z :=
  match v with
  | PStr s => Ok (Z.of_nat (String.length s))
  | PList l => Ok (Z.of_nat (length l))
  | PDict d => Ok (Z.of_nat (length d))
  | _ => Raise (TypeError
                  ("object of type '" +:+ type_name v +:+ "' has no len()"))
  end.

(** [iter(v)], run to the end. *)
Definition iterate (v : pyval) : outcome (list pyval) :=
  match v with
  | PStr s => Ok (chars s)
  | PList l => Ok l
  | PDict d => Ok (d.*1)
  | _ => Raise (TypeError ("'" +:+ type_name v +:+ "' object is not iterable"))
  end.

(** [hash(v)], for its failure only. *)
Definition check_hashable (v : pyval) : outcome unit :=
  if hashable v then Ok tt
  else Raise (TypeError ("unhashable type: '" +:+ type_name v +:+ "'")).

(** Library functions of Python that the code calls and whose result
    the properties below never inspect. *)
Class PyLib := {
  (** [hashlib.md5(s.encode()).hexdigest()] *)
  md5_hexdigest : string → string;
  (** [json.dumps(v, sort_keys=True)] *)
  json_dumps_sorted : pyval → string;
  (** [t.isoformat()] *)
  isoformat : Z → string;
  (** [t.strftime(fmt)] *)
  strftime : Z → string → string;
  (** [str(v)], as an f-string formats a value *)
  str_of : pyval → string
}.

(** [c.lower()] for a character with a code point below 256: the
    letters A to Z and the Latin-1 capitals from 192 to 222 (the
    multiplication sign 215 apart) are moved up by 32. *)
Definition lower_char (c : ascii) : ascii :=
  let n := nat_of_ascii c in
  if (65 <=? n)%nat && (n <=? 90)%nat
     || (192 <=? n)%nat && (n <=? 222)%nat && negb (n =? 215)%nat
  then ascii_of_nat (n + 32) else c.

(** [s.lower()] *)
Fixpoint lower (s : string) : string :=
  match s with
  | EmptyString => EmptyString
  | String c s' => String (lower_char c) (lower s')
  end.

(** [c.isspace()] for a character with a code point below 256. *)
Definition is_space (c : ascii) : bool :=
  let n := nat_of_ascii c in
  ((9 <=? n)%nat && (n <=? 13)%nat) || ((28 <=? n)%nat && (n <=? 32)%nat)
  || (n =? 133)%nat || (n =? 160)%nat.

(** [s.lstrip()] *)
Fixpoint lstrip (s : string) : string :=
  match s with
  | EmptyString => EmptyString
  | String c s' => if is_space c then lstrip s' else s
  end.

(** [s.rstrip()] *)
Fixpoint rstrip (s : string) : string :=
  match s with
  | EmptyString => EmptyString
  | String c s' =>
      match rstrip s' with
      | EmptyString => if is_space c then EmptyString else String c EmptyString
      | r => String c r
      end
  end.

(** [s.strip()] *)
Definition strip (s : string) : string := rstrip (lstrip s).

(** The line feed of a string literal that runs over several lines. *)
Definition nl : string := String (ascii_of_nat 10) EmptyString.

(** [l[start:]] for a Python list: a negative [start] counts from the
    end, and both ends are clamped. *)
Definition slice_from {A} (l : list A) (start : Z) : list A :=
  let n := Z.of_nat (length l) in
  let start := if start <? 0 then Z.max (start + n) 0 else Z.min start n in
  drop (Z.to_nat start) l.

End Py.

Import Py.
Local Open Scope py_scope.

(** ** [app/services/compliance_service.py] *)

Module Compliance.

(** [ComplianceStatus] *)
Inductive ComplianceStatus :=
| COMPLIANT | NON_COMPLIANT | PARTIALLY_COMPLIANT | PENDING_REVIEW
| NOT_APPLICABLE.

Definition ComplianceStatus_value (s : ComplianceStatus) : string :=
  match s with
  | COMPLIANT => "compliant"
  | NON_COMPLIANT => "non_compliant"
  | PARTIALLY_COMPLIANT => "partially_compliant"
  | PENDING_REVIEW => "pending_review"
  | NOT_APPLICABLE => "not_applicable"
  end.

(** [ComplianceSeverity] *)
Inductive ComplianceSeverity := CRITICAL | HIGH | MEDIUM | LOW | INFO_.

Definition ComplianceSeverity_value (s : ComplianceSeverity) : string :=
  match s with
  | CRITICAL => "critical"
  | HIGH => "high"
  | MEDIUM => "medium"
  | LOW => "low"
  | INFO_ => "info"
  end.

(** The configuration dictionary, with the keys the service reads and the
    value types of [_get_default_config]; [None] is an absent key. *)
Record Config := {
  cfg_strict_mode : option bool;
  cfg_cache_results : option bool;
  cfg_cache_ttl_minutes : option Z;
  cfg_default_frameworks : option (list string)
}.

(** The dictionary a framework check returns. *)
Record framework_result := {
  fr_framework : string;
  fr_status : string;
  fr_score : Q;
  fr_issues : list pyval;
  fr_controls_checked : list string
}.

(** The dictionary [check_compliance] returns. *)
Record compliance_results := {
  overall_status : string;
  checked_at : string;
  frameworks_checked : list string;
  framework_results : gmap string framework_result;
  issues : list pyval;
  recommendations : list string;
  compliance_score : Q
}.

(** A cache item [{'result': ..., 'cached_at': ...}]; [cached_at] is an
    option because [_is_cache_valid] provides for its absence. *)
Record cache_item := {
  result : compliance_results;
  cached_at : option Z
}.

Record ComplianceService := {
  config : Config;
  strict_mode : bool;
  cache_results : bool;
  supported_frameworks : gset string;
  _compliance_cache : option (gmap string cache_item)
}.

Abbreviation M := (Py.M ComplianceService).

Definition _get_default_config : Config :=
  {| cfg_strict_mode := Some false;
     cfg_cache_results := Some true;
     cfg_cache_ttl_minutes := Some 60;
     cfg_default_frameworks := Some ["SOX"; "GDPR"; "ISO27001"] |}.

Definition _get_supported_frameworks : gset string :=
  list_to_set
    ["SOX"; "GDPR"; "ISO27001"; "HIPAA"; "PCI_DSS"; "SOC2"; "NIST"; "COBIT"].

(** [bool(config)] for the dictionary: empty means no key at all. *)
Definition config_truthy (c : Config) : bool :=
  match cfg_strict_mode c, cfg_cache_results c,
        cfg_cache_ttl_minutes c, cfg_default_frameworks c with
  | None, None, None, None => false
  | _, _, _, _ => true
  end.

(** [ComplianceService.__init__]: from the world before the object exists
    to the world that holds it. *)
Definition __init__ (config : option Config) (w : world unit)
  : world ComplianceService :=
  let config :=
    match config with
    | Some c => if config_truthy c then c else _get_default_config
    | None => _get_default_config
    end in
  let strict_mode := default false (cfg_strict_mode config) in
  let cache_results := default true (cfg_cache_results config) in
  let self :=
    {| config := config;
       strict_mode := strict_mode;
       cache_results := cache_results;
       supported_frameworks := _get_supported_frameworks;
       _compliance_cache := if cache_results then Some ∅ else None |} in
  World (w_clock w) (w_ticks w)
        (w_log w ++ [LogRecord INFO
                       "Compliance Service initialized (strict_mode: {})"
                       [PBool strict_mode]])
        self.

Definition _check_sox_compliance (data : pyval) : framework_result :=
  {| fr_framework := "SOX";
     fr_status := ComplianceStatus_value COMPLIANT;
     fr_score := 85 # 100;
     fr_issues := [];
     fr_controls_checked :=
       ["financial_reporting"; "internal_controls"; "audit_trail"] |}.

Definition _check_gdpr_compliance (data : pyval) : framework_result :=
  {| fr_framework := "GDPR";
     fr_status := ComplianceStatus_value PARTIALLY_COMPLIANT;
     fr_score := 75 # 100;
     fr_issues :=
       [PDict [(PStr "type", PStr "data_retention");
               (PStr "severity", PStr (ComplianceSeverity_value MEDIUM))]];
     fr_controls_checked :=
       ["data_protection"; "consent_management"; "data_retention"] |}.

Definition _check_iso27001_compliance (data : pyval) : framework_result :=
  {| fr_framework := "ISO27001";
     fr_status := ComplianceStatus_value COMPLIANT;
     fr_score := 90 # 100;
     fr_issues := [];
     fr_controls_checked :=
       ["access_control"; "incident_management"; "risk_assessment"] |}.

Definition _check_generic_compliance (data : pyval) : framework_result :=
  {| fr_framework := "generic";
     fr_status := ComplianceStatus_value PENDING_REVIEW;
     fr_score := 50 # 100;
     fr_issues := [];
     fr_controls_checked := ["basic_controls"] |}.

(** The dispatch table of [_check_framework_compliance]. *)
Definition framework_checks : gmap string (pyval → framework_result) :=
  <["SOX" := _check_sox_compliance]>
    (<["GDPR" := _check_gdpr_compliance]>
       (<["ISO27001" := _check_iso27001_compliance]> ∅)).

Definition _check_framework_compliance (data : pyval) (framework : string)
  : M framework_result :=
  log DEBUG "Checking compliance for framework: {}" [PStr framework];;
  let check_function :=
    default _check_generic_compliance (framework_checks !! framework) in
  ret (check_function data).

Definition _determine_overall_status (compliance_score : Q) : string :=
  if Qle_bool (90 # 100) compliance_score then
    ComplianceStatus_value COMPLIANT
  else if Qle_bool (70 # 100) compliance_score then
    ComplianceStatus_value PARTIALLY_COMPLIANT
  else
    ComplianceStatus_value NON_COMPLIANT.

Definition _generate_compliance_recommendations (r : compliance_results)
  : list string :=
  if negb (Qle_bool (80 # 100) (compliance_score r)) then
    ["Implement additional security controls";
     "Enhance documentation processes";
     "Conduct regular compliance training"]
  else [].

(** [sorted(frameworks)]: strings in lexicographic order of their
    characters. *)
Definition sorted (l : list string) : list string := merge_sort String.le l.

Definition _generate_cache_key `{PyLib} (data : pyval)
    (frameworks : list string) : string :=
  let key_data :=
    json_dumps_sorted
      (PDict [(PStr "data", data);
              (PStr "frameworks", PList (PStr <$> sorted frameworks))]) in
  md5_hexdigest key_data.

(** [timedelta(minutes=m)] in microseconds. *)
Definition timedelta_minutes (m : Z) : Z := m * 60000000.

Definition _is_cache_valid (cached_item : cache_item) : M bool :=
  match cached_at cached_item with
  | None => ret false
  | Some at_ =>
      let* self := get_self in
      let cache_ttl :=
        timedelta_minutes (default 60 (cfg_cache_ttl_minutes (config self))) in
      let* t := now in
      ret (bool_decide (t - at_ < cache_ttl))
  end.

(** [bool(self._compliance_cache)]: [None] and the empty dict are false. *)
Definition cache_truthy (c : option (gmap string cache_item)) : bool :=
  match c with
  | None => false
  | Some m => negb (bool_decide (m = ∅))
  end.

(** Updates of single keys of the result dictionary. *)
Definition set_framework_results (r : compliance_results)
    (v : gmap string framework_result) : compliance_results :=
  {| overall_status := overall_status r; checked_at := checked_at r;
     frameworks_checked := frameworks_checked r; framework_results := v;
     issues := issues r; recommendations := recommendations r;
     compliance_score := compliance_score r |}.

Definition set_compliance_score (r : compliance_results) (v : Q)
  : compliance_results :=
  {| overall_status := overall_status r; checked_at := checked_at r;
     frameworks_checked := frameworks_checked r;
     framework_results := framework_results r;
     issues := issues r; recommendations := recommendations r;
     compliance_score := v |}.

Definition set_overall_status (r : compliance_results) (v : string)
  : compliance_results :=
  {| overall_status := v; checked_at := checked_at r;
     frameworks_checked := frameworks_checked r;
     framework_results := framework_results r;
     issues := issues r; recommendations := recommendations r;
     compliance_score := compliance_score r |}.

Definition set_recommendations (r : compliance_results) (v : list string)
  : compliance_results :=
  {| overall_status := overall_status r; checked_at := checked_at r;
     frameworks_checked := frameworks_checked r;
     framework_results := framework_results r;
     issues := issues r; recommendations := v;
     compliance_score := compliance_score r |}.

(** The body of the loop over [frameworks] (lines 123-130); the loop
    carries [compliance_results] and [total_score]. *)
Definition check_one (data : pyval) (framework : string)
    (st : compliance_results * Q) : M (compliance_results * Q) :=
  let* self := get_self in
  if bool_decide (framework ∈ supported_frameworks self) then
    let* framework_result := _check_framework_compliance data framework in
    ret (set_framework_results st.1
           (<[framework := framework_result]> (framework_results st.1)),
         (st.2 + fr_score framework_result)%Q)
  else
    log WARNING "Framework {} not supported, skipping" [PStr framework];;
    ret st.

(** Lines 104-110: the answer from the cache, if it holds a valid one. *)
Definition cache_probe (cache_key : string) : M (option compliance_results) :=
  let* self := get_self in
  if cache_truthy (_compliance_cache self) then
    match default ∅ (_compliance_cache self) !! cache_key with
    | Some cached_result =>
        let* valid := _is_cache_valid cached_result in
        if valid then
          log INFO "Returning cached compliance result" [];;
          ret (Some (result cached_result))
        else ret None
    | None => ret None
    end
  else ret None.

(** Lines 112-144: the computation of a fresh result. *)
Definition compute_results `{PyLib} (data : pyval) (frameworks : list string)
  : M compliance_results :=
  let* t := now in
  let compliance_results :=
    {| overall_status := ComplianceStatus_value PENDING_REVIEW;
       checked_at := isoformat t;
       frameworks_checked := frameworks;
       framework_results := ∅;
       issues := [];
       recommendations := [];
       compliance_score := 0 |} in
  let total_score := 0%Q in
  let* st := for_each frameworks (check_one data)
                      (compliance_results, total_score) in
  let compliance_results := st.1 in
  let total_score := st.2 in
  let compliance_results :=
    if negb (bool_decide (framework_results compliance_results = ∅)) then
      set_compliance_score compliance_results
        (total_score /
           inject_Z (Z.of_nat (size (framework_results compliance_results))))%Q
    else compliance_results in
  let compliance_results :=
    set_overall_status compliance_results
      (_determine_overall_status (compliance_score compliance_results)) in
  let compliance_results :=
    set_recommendations compliance_results
      (_generate_compliance_recommendations compliance_results) in
  ret compliance_results.

(** Lines 146-151: the store into the cache. *)
Definition cache_store (cache_key : string) (r : compliance_results)
  : M unit :=
  let* self := get_self in
  if cache_truthy (_compliance_cache self) then
    let* t := now in
    put_self
      {| config := config self;
         strict_mode := strict_mode self;
         cache_results := cache_results self;
         supported_frameworks := supported_frameworks self;
         _compliance_cache :=
           Some (<[cache_key := {| result := r; cached_at := Some t |}]>
                   (default ∅ (_compliance_cache self))) |}
  else ret tt.

(** [frameworks or self.config.get('default_frameworks', ['SOX'])] *)
Definition effective_frameworks (self : ComplianceService)
    (frameworks : option (list string)) : list string :=
  match frameworks with
  | Some (f :: fs) => f :: fs
  | _ => default ["SOX"] (cfg_default_frameworks (config self))
  end.

(** [ComplianceService.check_compliance] *)
Definition check_compliance `{PyLib} (data : pyval)
    (frameworks : option (list string)) : M compliance_results :=
  try_except
    (let* self := get_self in
     let frameworks := effective_frameworks self frameworks in
     log INFO "Checking compliance against frameworks: {}"
         [PList (PStr <$> frameworks)];;
     let cache_key := _generate_cache_key data frameworks in
     let* hit := cache_probe cache_key in
     match hit with
     | Some cached => ret cached
     | None =>
         let* compliance_results := compute_results data frameworks in
         cache_store cache_key compliance_results;;
         log INFO "Compliance check completed with score: {:.2f}"
             [PFloat (compliance_score compliance_results)];;
         ret compliance_results
     end)
    (λ e,
       log ERROR "Compliance check failed: {}" [PStr (exn_str e)];;
       raise (ComplianceServiceError
                ("Failed to check compliance: " +:+ exn_str e))).

(** One call of [check_compliance] by a client of the service. *)
Record call := Call {
  call_data : pyval;
  call_frameworks : option (list string)
}.

(** A client calling [check_compliance] again and again; the results of
    the calls are collected. *)
Fixpoint run_calls `{PyLib} (cs : list call) : M (list compliance_results) :=
  match cs with
  | [] => ret []
  | c :: cs' =>
      let* r := check_compliance (call_data c) (call_frameworks c) in
      let* rs := run_calls cs' in
      ret (r :: rs)
  end.

(** The worlds a service can be in: it was constructed by [__init__] and
    then used through [check_compliance]. *)
Inductive reachable `{PyLib} : world ComplianceService → Prop :=
| reachable_init (config : option Config) (w : world unit) :
    reachable (__init__ config w)
| reachable_call (w : world ComplianceService) (data : pyval)
    (frameworks : option (list string)) :
    reachable w →
    reachable (check_compliance data frameworks w).2.

(** *** Vocabulary of the properties *)

(** No framework of the list is one the service supports. *)
Definition unsupported (self : ComplianceService) (fws : list string) : Prop :=
  Forall (λ f, f ∉ supported_frameworks self) fws.

(** [cache_ttl] of [_is_cache_valid], in microseconds. *)
Definition cache_ttl (self : ComplianceService) : Z :=
  timedelta_minutes (default 60 (cfg_cache_ttl_minutes (config self))).

(** The item under [key], if the cache exists and holds one. *)
Definition cached (self : ComplianceService) (key : string)
  : option cache_item :=
  default ∅ (_compliance_cache self) !! key.

(** [self] with another cache. *)
Definition with_cache (self : ComplianceService)
    (c : option (gmap string cache_item)) : ComplianceService :=
  {| config := config self;
     strict_mode := strict_mode self;
     cache_results := cache_results self;
     supported_frameworks := supported_frameworks self;
     _compliance_cache := c |}.

(** The key a call is cached under. *)
Definition key_of `{PyLib} (self : ComplianceService) (data : pyval)
    (frameworks : option (list string)) : string :=
  _generate_cache_key data (effective_frameworks self frameworks).

(** The first record every call logs. *)
Definition log_checking (self : ComplianceService)
    (frameworks : option (list string)) : log_record :=
  LogRecord INFO "Checking compliance against frameworks: {}"
    [PList (PStr <$> effective_frameworks self frameworks)].

(** *** What the loop over the frameworks computes *)

(** The check [_check_framework_compliance] selects for a framework,
    applied to the data. *)
Definition check_of (data : pyval) (framework : string) : framework_result :=
  default _check_generic_compliance (framework_checks !! framework) data.

(** The frameworks of a list that the service supports, repetitions
    kept. *)
Definition supported_of (self : ComplianceService) (fws : list string)
  : list string :=
  filter (λ f, f ∈ supported_frameworks self) fws.

(** [framework_results] after the loop has run over the list. *)
Definition results_after (data : pyval) (fws : list string)
    (fr : gmap string framework_result) : gmap string framework_result :=
  foldl (λ fr f, <[f := check_of data f]> fr) fr fws.

(** [total_score] after the loop has run over the list. *)
Definition total_after (data : pyval) (fws : list string) (total : Q) : Q :=
  foldl (λ t f, (t + fr_score (check_of data f))%Q) total fws.

(** *** [generate_compliance_report] *)

(** The values that have a length, and the dictionaries. *)
Definition has_len (v : pyval) : bool :=
  match v with PStr _ | PList _ | PDict _ => true | _ => false end.

Definition is_dictionary (v : pyval) : bool :=
  match v with PDict _ => true | _ => false end.


(** [[i for i in issues if i.get('severity') == 'critical']] *)
Fixpoint critical_issues (issues : list pyval) : outcome (list pyval) :=
  match issues with
  | [] => Ok []
  | i :: issues' =>
      match get_method i "severity" PNone with
      | Raise e => Raise e
      | Ok severity =>
          match critical_issues issues' with
          | Raise e => Raise e
          | Ok rest =>
              Ok (if eq_str severity (ComplianceSeverity_value CRITICAL)
                  then i :: rest else rest)
          end
      end
  end.

Definition _create_executive_summary (compliance_data : pyval)
  : outcome pyval :=
  match get_method compliance_data "overall_status" PNone with
  | Raise e => Raise e
  | Ok overall_status =>
  match get_method compliance_data "compliance_score" (PFloat 0) with
  | Raise e => Raise e
  | Ok compliance_score =>
  match get_method compliance_data "framework_results" (PDict []) with
  | Raise e => Raise e
  | Ok framework_results =>
  match len framework_results with
  | Raise e => Raise e
  | Ok frameworks_assessed =>
  match get_method compliance_data "issues" (PList []) with
  | Raise e => Raise e
  | Ok issues =>
  match iterate issues with
  | Raise e => Raise e
  | Ok issues =>
  match critical_issues issues with
  | Raise e => Raise e
  | Ok critical =>
      Ok (PDict [(PStr "overall_status", overall_status);
                 (PStr "compliance_score", compliance_score);
                 (PStr "frameworks_assessed", PInt frameworks_assessed);
                 (PStr "critical_issues", PInt (Z.of_nat (length critical)))])
  end end end end end end end.

(** [timedelta(days=d)] in microseconds. *)
Definition timedelta_days (d : Z) : Z := d * 86400000000.

Definition _extract_action_items `{PyLib} (compliance_data : pyval)
  : M pyval :=
  let* t := now in
  ret (PList
         [PDict [(PStr "priority", PStr "high");
                 (PStr "action", PStr "Address critical compliance gaps");
                 (PStr "due_date",
                  PStr (isoformat (t + timedelta_days 30)))]]).

Definition _analyze_compliance_trends (compliance_data : pyval) : pyval :=
  PDict [(PStr "trend", PStr "improving");
         (PStr "score_change", PStr "+5%");
         (PStr "period", PStr "30_days")].

(** An f-string field: a string is put in as it is. *)
Definition fvalue `{PyLib} (v : pyval) : string :=
  match v with PStr s => s | _ => str_of v end.

Definition _generate_pdf_report `{PyLib} (report : pydict) : outcome string :=
  match subscript (PDict report) "report_id" with
  | Raise e => Raise e
  | Ok report_id =>
      Ok ("/tmp/compliance_report_" +:+ fvalue report_id +:+ ".pdf")
  end.

Definition _generate_html_report (report : pydict) : string :=
  "<html><body>Compliance Report</body></html>".

(** [ComplianceService.generate_compliance_report] *)
Definition generate_compliance_report `{PyLib} (compliance_data : pyval)
    (report_format : string) : M pydict :=
  try_except
    (log INFO "Generating compliance report in {} format"
         [PStr report_format];;
     let* t := now in
     let report_id := "compliance_" +:+ strftime t "%Y%m%d_%H%M%S" in
     let* t := now in
     let generated_at := isoformat t in
     let* executive_summary :=
       lift (_create_executive_summary compliance_data) in
     let* action_items := _extract_action_items compliance_data in
     let report :=
       [(PStr "report_id", PStr report_id);
        (PStr "generated_at", PStr generated_at);
        (PStr "report_format", PStr report_format);
        (PStr "executive_summary", executive_summary);
        (PStr "detailed_findings", compliance_data);
        (PStr "action_items", action_items);
        (PStr "compliance_trends",
         _analyze_compliance_trends compliance_data)] in
     let* report :=
       if String.eqb (lower report_format) "pdf" then
         let* pdf_path := lift (_generate_pdf_report report) in
         ret (dict_set report (PStr "pdf_path") (PStr pdf_path))
       else if String.eqb (lower report_format) "html" then
         ret (dict_set report (PStr "html_content")
                (PStr (_generate_html_report report)))
       else ret report in
     log INFO "Compliance report generated successfully (ID: {})"
         [default PNone (dict_lookup report (PStr "report_id"))];;
     ret report)
    (λ e,
       log ERROR "Compliance report generation failed: {}"
           [PStr (exn_str e)];;
       raise (ComplianceServiceError
                ("Failed to generate compliance report: " +:+ exn_str e))).

(** The compliance data [_create_executive_summary] can digest: a
    dictionary whose 'framework_results', if any, has a length and
    whose 'issues', if any, can be iterated over and holds
    dictionaries only. *)
Definition summary_ok (compliance_data : pyval) : bool :=
  match compliance_data with
  | PDict d =>
      has_len (default (PDict []) (dict_lookup d (PStr "framework_results")))
      && match iterate (default (PList []) (dict_lookup d (PStr "issues"))) with
         | Ok issues => forallb is_dictionary issues
         | Raise _ => false
         end
  | _ => false
  end.

(** [_validate_policy_rules]: a placeholder that finds no violation. *)
Definition _validate_policy_rules (policy_data policy_type : pyval)
  : list pyval := [].

Definition _generate_policy_warnings (policy_data policy_type : pyval)
  : list pyval :=
  [PStr "Consider implementing additional security measures"].

Definition _generate_policy_recommendations
    (policy_data policy_type : pyval) : list pyval :=
  [PStr "Review policy settings quarterly";
   PStr "Implement automated compliance monitoring"].

(** [ComplianceService.validate_policy] *)
Definition validate_policy `{PyLib} (policy_data policy_type : pyval)
  : M pydict :=
  try_except
    (log INFO "Validating {} policy" [policy_type];;
     let* t := now in
     let validation_result :=
       [(PStr "policy_type", policy_type);
        (PStr "validated_at", PStr (isoformat t));
        (PStr "is_valid", PBool true);
        (PStr "violations", PList []);
        (PStr "warnings", PList []);
        (PStr "recommendations", PList [])] in
     let violations := _validate_policy_rules policy_data policy_type in
     let validation_result :=
       dict_set validation_result (PStr "violations") (PList violations) in
     let validation_result :=
       dict_set validation_result (PStr "is_valid")
         (PBool (Z.of_nat (length violations) =? 0)) in
     let validation_result :=
       dict_set validation_result (PStr "warnings")
         (PList (_generate_policy_warnings policy_data policy_type)) in
     let validation_result :=
       dict_set validation_result (PStr "recommendations")
         (PList (_generate_policy_recommendations policy_data policy_type)) in
     let* is_valid := lift (subscript (PDict validation_result) "is_valid") in
     log INFO "Policy validation completed (valid: {})" [is_valid];;
     ret validation_result)
    (λ e,
       log ERROR "Policy validation failed: {}" [PStr (exn_str e)];;
       raise (ComplianceServiceError
                ("Failed to validate policy: " +:+ exn_str e))).

End Compliance.
(** ** [app/services/ai_service.py] *)

Module AI.

(** The attributes [__init__] reads from the configuration. *)
Record AIService := {
  api_key : option string;
  model_name : string;
  timeout : Z;
  max_retries : Z
}.

Abbreviation M := (Py.M AIService).

(** The configuration dictionary, with the keys the service reads and
    the value types of [_get_default_config]; [None] is an absent key. *)
Record Config := {
  cfg_api_key : option string;
  cfg_model_name : option string;
  cfg_timeout : option Z;
  cfg_max_retries : option Z;
  cfg_temperature : option Q;
  cfg_max_tokens : option Z
}.

Definition _get_default_config : Config :=
  {| cfg_api_key := None;
     cfg_model_name := Some "gpt-3.5-turbo";
     cfg_timeout := Some 30;
     cfg_max_retries := Some 3;
     cfg_temperature := Some (1 # 10);
     cfg_max_tokens := Some 1000 |}.

(** [bool(config)] for the dictionary: empty means no key at all. *)
Definition config_truthy (c : Config) : bool :=
  match cfg_api_key c, cfg_model_name c, cfg_timeout c,
        cfg_max_retries c, cfg_temperature c, cfg_max_tokens c with
  | None, None, None, None, None, None => false
  | _, _, _, _, _, _ => true
  end.

(** [AIService.__init__] *)
Definition __init__ (config : option Config) (w : world unit)
  : world AIService :=
  let config :=
    match config with
    | Some c => if config_truthy c then c else _get_default_config
    | None => _get_default_config
    end in
  let model_name := default "gpt-3.5-turbo" (cfg_model_name config) in
  World (w_clock w) (w_ticks w)
        (w_log w ++ [LogRecord INFO "AI Service initialized with model: {}"
                       [PStr model_name]])
        {| api_key := cfg_api_key config;
           model_name := model_name;
           timeout := default 30 (cfg_timeout config);
           max_retries := default 3 (cfg_max_retries config) |}.

(** The dictionary [analyze_document] returns. *)
Record analysis_result := {
  document_type : string;
  analyzed_at : string;
  key_findings : list string;
  risk_score : Q;
  recommendations : list string;
  confidence : Q
}.

(** [max(a, b)] and [min(a, b)] of two floats: the first argument is
    kept unless the second is strictly beyond it. *)
Definition py_max (a b : Q) : Q := if Qle_bool b a then a else b.
Definition py_min (a b : Q) : Q := if Qle_bool a b then a else b.

Definition _extract_key_findings (content : string) : list string :=
  ["Key financial metrics identified";
   "Potential compliance gaps detected";
   "Process improvements recommended"].

(** [len(content) % 100 / 100], then the clamp to [0.1, 0.95].  A
    character of [content] stands for one code point. *)
Definition _calculate_risk_score (content : string) : Q :=
  let base_score :=
    (inject_Z (Z.of_nat (String.length content) mod 100) / inject_Z 100)%Q in
  py_min (py_max base_score (1 # 10)) (95 # 100).

Definition _generate_recommendations (content : string) : list string :=
  ["Enhance documentation processes";
   "Implement additional controls";
   "Review current procedures"].

(** [AIService.analyze_document] *)
Definition analyze_document `{PyLib} (document_content : string)
    (document_type : string) : M analysis_result :=
  try_except
    (log INFO "Analyzing {} document (length: {} chars)"
         [PStr document_type;
          PInt (Z.of_nat (String.length document_content))];;
     let* t := now in
     let analysis_result :=
       {| document_type := document_type;
          analyzed_at := isoformat t;
          key_findings := _extract_key_findings document_content;
          risk_score := _calculate_risk_score document_content;
          recommendations := _generate_recommendations document_content;
          confidence := 85 # 100 |} in
     log INFO "Document analysis completed with risk score: {}"
         [PFloat (risk_score analysis_result)];;
     ret analysis_result)
    (λ e,
       log ERROR "Document analysis failed: {}" [PStr (exn_str e)];;
       raise (AIServiceError ("Failed to analyze document: " +:+ exn_str e))).

(** [AIService.generate_audit_recommendations] *)
Definition generate_audit_recommendations (audit_data : pyval)
  : M (list pyval) :=
  try_except
    (log INFO "Generating AI-powered audit recommendations" [];;
     let recommendations :=
       [PDict [(PStr "id", PInt 1);
               (PStr "priority", PStr "high");
               (PStr "category", PStr "compliance");
               (PStr "title",
                PStr "Implement enhanced documentation controls");
               (PStr "description",
                PStr "Based on analysis, documentation processes need strengthening");
               (PStr "estimated_effort", PStr "medium");
               (PStr "confidence", PFloat (88 # 100))];
        PDict [(PStr "id", PInt 2);
               (PStr "priority", PStr "medium");
               (PStr "category", PStr "process");
               (PStr "title", PStr "Review approval workflows");
               (PStr "description",
                PStr "Current approval processes show potential inefficiencies");
               (PStr "estimated_effort", PStr "low");
               (PStr "confidence", PFloat (75 # 100))]] in
     log INFO "Generated {} recommendations"
         [PInt (Z.of_nat (length recommendations))];;
     ret recommendations)
    (λ e,
       log ERROR "Recommendation generation failed: {}" [PStr (exn_str e)];;
       raise (AIServiceError
                ("Failed to generate recommendations: " +:+ exn_str e))).

(** *** Vocabulary of the properties *)

(** [len(content) % 100], the numerator of the base score. *)
Definition hundredths (content : string) : Z :=
  Z.of_nat (String.length content) mod 100.

(** [_calculate_overall_risk], [_identify_risk_factors] and
    [_suggest_mitigations]: placeholders. *)
Definition _calculate_overall_risk (data : pyval) : string := "medium".

Definition _identify_risk_factors (data : pyval) : list pyval :=
  [PStr "Insufficient documentation";
   PStr "Process gaps";
   PStr "Resource constraints"].

Definition _suggest_mitigations (data : pyval) : list pyval :=
  [PStr "Implement regular reviews";
   PStr "Enhance training programs";
   PStr "Strengthen controls"].

(** [AIService.assess_risk] *)
Definition assess_risk `{PyLib} (data : pyval) : M pydict :=
  try_except
    (log INFO "Performing AI-powered risk assessment" [];;
     let overall_risk := _calculate_overall_risk data in
     let risk_factors := _identify_risk_factors data in
     let mitigation_strategies := _suggest_mitigations data in
     let* t := now in
     let risk_assessment :=
       [(PStr "overall_risk", PStr overall_risk);
        (PStr "risk_factors", PList risk_factors);
        (PStr "mitigation_strategies", PList mitigation_strategies);
        (PStr "assessed_at", PStr (isoformat t));
        (PStr "confidence", PFloat (9 # 10))] in
     let* overall :=
       lift (subscript (PDict risk_assessment) "overall_risk") in
     log INFO "Risk assessment completed with overall risk: {}" [overall];;
     ret risk_assessment)
    (λ e,
       log ERROR "Risk assessment failed: {}" [PStr (exn_str e)];;
       raise (AIServiceError ("Failed to assess risk: " +:+ exn_str e))).

End AI.

(** ** [audit_project/app/models/audit.py] *)

Module Audit.

(** An [AuditLog] object.  [id] and [timestamp] are filled in by the
    database when the row is written; the other attributes hold whatever
    the caller passed. *)
Record AuditLog := {
  id : option Z;
  timestamp : option Z;
  user_id : pyval;
  action : pyval;
  resource_type : pyval;
  resource_id : pyval;
  description : pyval;
  changes : pyval;
  ip_address : pyval;
  status : pyval
}.

(** What the two module globals [db] and [supabase] stand for: the
    objects added to [db.session] and not yet committed, the rows of
    the ORM table ['audit_logs'], and the tables behind the Supabase
    client, each a list of inserted records.  Both libraries are
    outside the repository; only the hand-over of the record is
    modelled, not what a server may reject. *)
Record stores := {
  session_new : list AuditLog;
  audit_logs : list AuditLog;
  supabase_tables : gmap string (list pydict)
}.

Abbreviation M := (Py.M stores).

(** The arguments of both insert functions, defaults filled in by the
    caller's omission: [None] and ['success']. *)
Record event_args := {
  a_action : pyval;
  a_resource_type : pyval;
  a_user_id : pyval;
  a_resource_id : pyval;
  a_description : pyval;
  a_changes : pyval;
  a_ip_address : pyval;
  a_status : pyval
}.

(** [AuditLog.__init__] *)
Definition AuditLog__init__ (action resource_type user_id resource_id
    description changes ip_address status : pyval) : AuditLog :=
  {| id := None;
     timestamp := None;
     user_id := user_id;
     action := action;
     resource_type := resource_type;
     resource_id := resource_id;
     description := description;
     changes := changes;
     ip_address := ip_address;
     status := status |}.

(** [db.session.add(obj)] *)
Definition session_add (obj : AuditLog) : M unit :=
  let* s := get_self in
  put_self {| session_new := session_new s ++ [obj];
              audit_logs := audit_logs s;
              supabase_tables := supabase_tables s |}.

(** The row written for a pending object: the next primary key and the
    column default [datetime.utcnow] for the timestamp. *)
Definition flush_row (next_id : Z) (t : Z) (obj : AuditLog) : AuditLog :=
  {| id := Some next_id;
     timestamp := Some (default t (timestamp obj));
     user_id := user_id obj;
     action := action obj;
     resource_type := resource_type obj;
     resource_id := resource_id obj;
     description := description obj;
     changes := changes obj;
     ip_address := ip_address obj;
     status := status obj |}.

Fixpoint flush_rows (next_id : Z) (t : Z) (objs : list AuditLog)
  : list AuditLog :=
  match objs with
  | [] => []
  | o :: objs' => flush_row next_id t o :: flush_rows (next_id + 1) t objs'
  end.

(** [db.session.commit()]; returns the rows written. *)
Definition session_commit : M (list AuditLog) :=
  let* s := get_self in
  let* t := now in
  let rows :=
    flush_rows (Z.of_nat (length (audit_logs s)) + 1) t (session_new s) in
  put_self {| session_new := [];
              audit_logs := audit_logs s ++ rows;
              supabase_tables := supabase_tables s |};;
  ret rows.

(** [AuditLog.log_event]; the object returned is the committed row. *)
Definition log_event (a : event_args) : M (option AuditLog) :=
  let log_ :=
    AuditLog__init__ (a_action a) (a_resource_type a) (a_user_id a)
      (a_resource_id a) (a_description a) (a_changes a) (a_ip_address a)
      (a_status a) in
  session_add log_;;
  let* rows := session_commit in
  ret (last rows).

(** [supabase.table(name).insert(data).execute()]; the response carries
    the inserted records in [data]. *)
Definition supabase_insert (name : string) (data : pydict) : M pyval :=
  let* s := get_self in
  put_self {| session_new := session_new s;
              audit_logs := audit_logs s;
              supabase_tables :=
                <[name := default [] (supabase_tables s !! name) ++ [data]]>
                  (supabase_tables s) |};;
  ret (PList [PDict data]).

(** [log_audit_event] *)
Definition log_audit_event (a : event_args) : M pyval :=
  let data :=
    [(PStr "action", a_action a);
     (PStr "resource_type", a_resource_type a);
     (PStr "user_id", a_user_id a);
     (PStr "resource_id", a_resource_id a);
     (PStr "description", a_description a);
     (PStr "changes", a_changes a);
     (PStr "ip_address", a_ip_address a);
     (PStr "status", a_status a)] in
  supabase_insert "audit_logs" data.

(** [getattr(r, name)] for the eight fields of a row of the ORM table. *)
Definition row_field (r : AuditLog) (name : string) : option pyval :=
  if String.eqb name "action" then Some (action r)
  else if String.eqb name "resource_type" then Some (resource_type r)
  else if String.eqb name "user_id" then Some (user_id r)
  else if String.eqb name "resource_id" then Some (resource_id r)
  else if String.eqb name "description" then Some (description r)
  else if String.eqb name "changes" then Some (changes r)
  else if String.eqb name "ip_address" then Some (ip_address r)
  else if String.eqb name "status" then Some (status r)
  else None.

(** The argument passed for a field, by name. *)
Definition args_field (a : event_args) (name : string) : option pyval :=
  if String.eqb name "action" then Some (a_action a)
  else if String.eqb name "resource_type" then Some (a_resource_type a)
  else if String.eqb name "user_id" then Some (a_user_id a)
  else if String.eqb name "resource_id" then Some (a_resource_id a)
  else if String.eqb name "description" then Some (a_description a)
  else if String.eqb name "changes" then Some (a_changes a)
  else if String.eqb name "ip_address" then Some (a_ip_address a)
  else if String.eqb name "status" then Some (a_status a)
  else None.

Definition event_fields : list string :=
  ["action"; "resource_type"; "user_id"; "resource_id"; "description";
   "changes"; "ip_address"; "status"].

(** [v] or [None] for an optional column. *)
Definition of_option_int (o : option Z) : pyval :=
  match o with Some n => PInt n | None => PNone end.

(** [AuditLog.to_dict]; [self.timestamp] is [None] as long as the row
    has not been written, and [None] has no [isoformat]. *)
Definition to_dict `{PyLib} (self : AuditLog) : outcome pydict :=
  match timestamp self with
  | None =>
      Raise (AttributeError
               "'NoneType' object has no attribute 'isoformat'")
  | Some t =>
      Ok [(PStr "id", of_option_int (id self));
          (PStr "timestamp", PStr (isoformat t));
          (PStr "user_id", user_id self);
          (PStr "action", action self);
          (PStr "resource_type", resource_type self);
          (PStr "resource_id", resource_id self);
          (PStr "description", description self);
          (PStr "changes", changes self);
          (PStr "ip_address", ip_address self);
          (PStr "status", status self)]
  end.

End Audit.

(** ** [app/services/notification_service.py] *)

Module Notification.

(** [NotificationChannel] *)
Inductive NotificationChannel := EMAIL | SMS | SLACK | IN_APP | WEBHOOK.

Definition NotificationChannel_value (c : NotificationChannel) : string :=
  match c with
  | EMAIL => "email"
  | SMS => "sms"
  | SLACK => "slack"
  | IN_APP => "in_app"
  | WEBHOOK => "webhook"
  end.

(** [self.enabled_channels] is a set, held as the list of its elements;
    a notification is passed by value, so a record in
    [sent_notifications] is the dictionary as it was when appended. *)
Record NotificationService := {
  config : pydict;
  enabled_channels : list pyval;
  notification_queue : list pyval;
  sent_notifications : list pydict
}.

Abbreviation M := (Py.M NotificationService).

Definition _get_default_config : pydict :=
  [(PStr "email",
    PDict [(PStr "enabled", PBool true);
           (PStr "smtp_server", PStr "localhost");
           (PStr "smtp_port", PInt 587);
           (PStr "use_tls", PBool true);
           (PStr "sender_email", PStr "audit@company.com");
           (PStr "sender_name", PStr "Audit System")]);
   (PStr "sms",
    PDict [(PStr "enabled", PBool false);
           (PStr "provider", PStr "twilio");
           (PStr "sender_number", PStr "+1234567890")]);
   (PStr "slack",
    PDict [(PStr "enabled", PBool false);
           (PStr "webhook_url", PNone);
           (PStr "default_channel", PStr "#audit-alerts")]);
   (PStr "in_app",
    PDict [(PStr "enabled", PBool true);
           (PStr "retention_days", PInt 30)]);
   (PStr "webhook",
    PDict [(PStr "enabled", PBool false);
           (PStr "endpoints", PList [])]);
   (PStr "retry",
    PDict [(PStr "max_attempts", PInt 3);
           (PStr "backoff_factor", PInt 2);
           (PStr "initial_delay_seconds", PInt 1)])].

(** [enabled.add(channel)] *)
Definition set_add (x : pyval) (s : list pyval) : list pyval :=
  if key_elem x s then s else s ++ [x].

(** [_get_enabled_channels], over [self.config.items()] *)
Fixpoint _get_enabled_channels (items : pydict) (enabled : list pyval)
  : list pyval :=
  match items with
  | [] => enabled
  | (channel, PDict cfg) :: items' =>
      if truthy (default (PBool false) (dict_lookup cfg (PStr "enabled")))
      then _get_enabled_channels items' (set_add channel enabled)
      else _get_enabled_channels items' enabled
  | _ :: items' => _get_enabled_channels items' enabled
  end.

(** [NotificationService.__init__] *)
Definition __init__ (config : option pydict) (w : world unit)
  : world NotificationService :=
  let config :=
    match config with
    | Some (i :: c) => i :: c
    | _ => _get_default_config
    end in
  let enabled := _get_enabled_channels config [] in
  World (w_clock w) (w_ticks w)
        (w_log w ++ [LogRecord INFO
                       "Notification Service initialized with channels: {}"
                       [PList enabled]])
        {| config := config;
           enabled_channels := enabled;
           notification_queue := [];
           sent_notifications := [] |}.

(** The loop over [required_fields] in [_validate_notification]. *)
Fixpoint check_required (notification : pydict) (fields : list string)
  : M unit :=
  match fields with
  | [] => ret tt
  | field :: fields' =>
      if negb (has_key notification field) then
        raise (NotificationServiceError
                 ("Missing required field: " +:+ field))
      else check_required notification fields'
  end.

Definition _validate_notification (notification : pydict) : M unit :=
  let required_fields := ["recipients"; "subject"; "content"] in
  check_required notification required_fields;;
  let* recipients := lift (subscript (PDict notification) "recipients") in
  if negb (truthy recipients) then
    raise (NotificationServiceError "Recipients list cannot be empty")
  else ret tt.

(** [len(notification['recipients'])] *)
Definition len_recipients (notification : pydict) : M Z :=
  let* recipients := lift (subscript (PDict notification) "recipients") in
  lift (len recipients).

(** [self.config.get(name, {})] *)
Definition config_section (self : NotificationService) (name : string)
  : pyval :=
  default (PDict []) (dict_lookup (config self) (PStr name)).

Definition failed_result (e : exn) : pyval :=
  PDict [(PStr "status", PStr "failed"); (PStr "error", PStr (exn_str e))].

Definition _send_email `{PyLib} (notification : pydict) : M pyval :=
  try_except
    (let* self := get_self in
     let email_config := config_section self "email" in
     let* n := len_recipients notification in
     log INFO "Sending email to {} recipients" [PInt n];;
     let* recipients := lift (subscript (PDict notification) "recipients") in
     let* recipients := lift (iterate recipients) in
     for_each recipients
       (λ recipient _, log DEBUG "Email sent to: {}" [recipient]) tt;;
     let* sent_count := len_recipients notification in
     let* t := now in
     ret (PDict [(PStr "status", PStr "success");
                 (PStr "sent_count", PInt sent_count);
                 (PStr "sent_at", PStr (isoformat t))]))
    (λ e,
       log ERROR "Email sending failed: {}" [PStr (exn_str e)];;
       ret (failed_result e)).

Definition _send_sms `{PyLib} (notification : pydict) : M pyval :=
  try_except
    (let* self := get_self in
     let sms_config := config_section self "sms" in
     let* n := len_recipients notification in
     log INFO "Sending SMS to {} recipients" [PInt n];;
     let* sent_count := len_recipients notification in
     let* t := now in
     ret (PDict [(PStr "status", PStr "success");
                 (PStr "sent_count", PInt sent_count);
                 (PStr "sent_at", PStr (isoformat t))]))
    (λ e,
       log ERROR "SMS sending failed: {}" [PStr (exn_str e)];;
       ret (failed_result e)).

Definition _send_slack `{PyLib} (notification : pydict) : M pyval :=
  try_except
    (let* self := get_self in
     let slack_config := config_section self "slack" in
     log INFO "Sending Slack notification to channel" [];;
     let* channel := lift (get_method slack_config "default_channel" PNone) in
     let* t := now in
     ret (PDict [(PStr "status", PStr "success");
                 (PStr "channel", channel);
                 (PStr "sent_at", PStr (isoformat t))]))
    (λ e,
       log ERROR "Slack sending failed: {}" [PStr (exn_str e)];;
       ret (failed_result e)).

Definition _send_in_app `{PyLib} (notification : pydict) : M pyval :=
  try_except
    (let* n := len_recipients notification in
     log INFO "Creating in-app notifications for {} users" [PInt n];;
     let* stored_count := len_recipients notification in
     let* t := now in
     ret (PDict [(PStr "status", PStr "success");
                 (PStr "stored_count", PInt stored_count);
                 (PStr "stored_at", PStr (isoformat t))]))
    (λ e,
       log ERROR "In-app notification failed: {}" [PStr (exn_str e)];;
       ret (failed_result e)).

(** [len(webhook_config.get('endpoints', []))] *)
Definition len_endpoints (webhook_config : pyval) : M Z :=
  let* endpoints := lift (get_method webhook_config "endpoints" (PList [])) in
  lift (len endpoints).

Definition _send_webhook `{PyLib} (notification : pydict) : M pyval :=
  try_except
    (let* self := get_self in
     let webhook_config := config_section self "webhook" in
     let* n := len_endpoints webhook_config in
     log INFO "Sending webhook notifications to {} endpoints" [PInt n];;
     let* endpoints_notified := len_endpoints webhook_config in
     let* t := now in
     ret (PDict [(PStr "status", PStr "success");
                 (PStr "endpoints_notified", PInt endpoints_notified);
                 (PStr "sent_at", PStr (isoformat t))]))
    (λ e,
       log ERROR "Webhook sending failed: {}" [PStr (exn_str e)];;
       ret (failed_result e)).

(** The table [channel_handlers] of [_send_via_channel]. *)
Definition channel_handlers `{PyLib}
  : list (pyval * (pydict → M pyval)) :=
  [(PStr (NotificationChannel_value EMAIL), _send_email);
   (PStr (NotificationChannel_value SMS), _send_sms);
   (PStr (NotificationChannel_value SLACK), _send_slack);
   (PStr (NotificationChannel_value IN_APP), _send_in_app);
   (PStr (NotificationChannel_value WEBHOOK), _send_webhook)].

(** [channel_handlers.get(channel)] *)
Fixpoint handlers_get {H} (handlers : list (pyval * H)) (channel : pyval)
  : option H :=
  match handlers with
  | [] => None
  | (k, h) :: handlers' =>
      if key_eqb k channel then Some h else handlers_get handlers' channel
  end.

Definition _send_via_channel `{PyLib} (notification : pydict)
    (channel : pyval) : M pyval :=
  lift (check_hashable channel);;
  match handlers_get channel_handlers channel with
  | None =>
      raise (NotificationServiceError
               ("Unsupported notification channel: " +:+ str_of channel))
  | Some handler => handler notification
  end.

(** The body of the loop over [channels] in [send_notification]; the
    loop carries [results]. *)
Definition send_one `{PyLib} (notification : pydict) (channel : pyval)
    (results : pydict) : M pydict :=
  let* self := get_self in
  lift (check_hashable channel);;
  if negb (key_elem channel (enabled_channels self)) then
    log WARNING "Channel {} is not enabled, skipping" [channel];;
    ret (dict_set results channel
           (PDict [(PStr "status", PStr "disabled");
                   (PStr "message", PStr "Channel not enabled")]))
  else
    try_except
      (let* channel_result := _send_via_channel notification channel in
       ret (dict_set results channel channel_result))
      (λ e,
         log ERROR "Failed to send via {}: {}" [channel; PStr (exn_str e)];;
         ret (dict_set results channel (failed_result e))).

(** [any(r.get('status') == 'success' for r in results.values())] *)
Fixpoint any_success (values : list pyval) : outcome bool :=
  match values with
  | [] => Ok false
  | r :: values' =>
      match get_method r "status" PNone with
      | Ok st => if eq_str st "success" then Ok true else any_success values'
      | Raise e => Raise e
      end
  end.

(** [NotificationService.send_notification] *)
Definition send_notification `{PyLib} (notification : pydict) : M pydict :=
  try_except
    (_validate_notification notification;;
     let* t := now in
     let notification_id := "notif_" +:+ strftime t "%Y%m%d_%H%M%S_%f" in
     let notification :=
       dict_set notification (PStr "id") (PStr notification_id) in
     let* t := now in
     let notification :=
       dict_set notification (PStr "created_at") (PStr (isoformat t)) in
     let notification :=
       dict_set notification (PStr "status") (PStr "pending") in
     log INFO "Sending notification {} via channels: {}"
         [PStr notification_id;
          default (PList []) (dict_lookup notification (PStr "channels"))];;
     let results := [] in
     let channels :=
       default (PList []) (dict_lookup notification (PStr "channels")) in
     let* channels := lift (iterate channels) in
     let* results := for_each channels (send_one notification) results in
     let* sent := lift (any_success (results.*2)) in
     let notification :=
       dict_set notification (PStr "status")
         (PStr (if sent then "sent" else "failed")) in
     let notification :=
       dict_set notification (PStr "results") (PDict results) in
     let* t := now in
     let notification :=
       dict_set notification (PStr "sent_at") (PStr (isoformat t)) in
     let* self := get_self in
     put_self {| config := config self;
                 enabled_channels := enabled_channels self;
                 notification_queue := notification_queue self;
                 sent_notifications :=
                   sent_notifications self ++ [notification] |};;
     log INFO "Notification {} processed with status: {}"
         [PStr notification_id;
          default PNone (dict_lookup notification (PStr "status"))];;
     ret notification)
    (λ e,
       log ERROR "Notification sending failed: {}" [PStr (exn_str e)];;
       raise (NotificationServiceError
                ("Failed to send notification: " +:+ exn_str e))).

(** *** Vocabulary of the properties *)

Definition is_dict (v : pyval) : bool :=
  match v with PDict _ => true | _ => false end.

(** The values [len] accepts. *)
Definition sized (v : pyval) : bool :=
  match v with PStr _ | PList _ | PDict _ => true | _ => false end.

(** The configuration has no 'slack' entry or a dictionary there. *)
Definition slack_config_ok (self : NotificationService) : bool :=
  is_dict (config_section self "slack").

(** The configuration has no 'webhook' entry or a dictionary there, with
    no 'endpoints' entry or one that has a length. *)
Definition webhook_config_ok (self : NotificationService) : bool :=
  match config_section self "webhook" with
  | PDict d => sized (default (PList []) (dict_lookup d (PStr "endpoints")))
  | _ => false
  end.

(** What [_validate_notification] asks for: the three fields, and a
    true value under 'recipients'. *)
Definition valid_notification (notification : pydict) : bool :=
  has_key notification "recipients" && has_key notification "subject"
  && has_key notification "content"
  && truthy (default PNone (dict_lookup notification (PStr "recipients"))).

(** [notification.get('channels', [])] *)
Definition channels_of (notification : pydict) : pyval :=
  default (PList []) (dict_lookup notification (PStr "channels")).

(** The channels can be iterated over and each of them has a hash. *)
Definition channels_ok (notification : pydict) : bool :=
  match iterate (channels_of notification) with
  | Ok channels => forallb hashable channels
  | Raise _ => false
  end.

(** The five channel names. *)
Definition channel_names : list string :=
  NotificationChannel_value <$> [EMAIL; SMS; SLACK; IN_APP; WEBHOOK].

(** The records of the loop over the recipients in [_send_email]. *)
Definition email_records (recipients : list pyval) : list log_record :=
  (λ r, LogRecord DEBUG "Email sent to: {}" [r]) <$> recipients.

(** A result with status 'success'. *)
Definition succeeded (r : pyval) : Prop :=
  ∃ d, r = PDict d ∧ dict_lookup d (PStr "status") = Some (PStr "success").

(** No record of the list is an error record. *)
Definition no_error (lg : list log_record) : Prop :=
  Forall (λ r, lr_level r ≠ ERROR) lg.

(** [m] does not assign to [self], and what it returns satisfies [P]. *)
Definition keeps {A} (m : M A) (P : A → Prop) : Prop :=
  ∀ w, w_self (m w).2 = w_self w ∧ ∀ a, (m w).1 = Ok a → P a.

(** [v] is a dictionary. *)
Definition is_dict_value (v : pyval) : Prop := is_dict v = true.

(** *** The history and the statistics *)

(** [NotificationService.get_notification_history]:
    [self.sent_notifications[-limit:]] *)
Definition get_notification_history (limit : Z) : M (list pydict) :=
  let* self := get_self in
  ret (slice_from (sent_notifications self) (- limit)).

(** [sum(1 for n in sent if n.get('status') == 'sent')]; the records
    are dictionaries. *)
Definition count_sent (sent : list pydict) : Z :=
  Z.of_nat
    (length
       (filter (λ n, eq_str (default PNone (dict_lookup n (PStr "status")))
                       "sent" = true) sent)).

(** [channels_used.update(channels)] for one notification: the channels
    are iterated over and each is hashed. *)
Fixpoint set_update (s : list pyval) (channels : list pyval)
  : outcome (list pyval) :=
  match channels with
  | [] => Ok s
  | c :: channels' =>
      match check_hashable c with
      | Raise e => Raise e
      | Ok _ => set_update (set_add c s) channels'
      end
  end.

(** The loop over the records that fills [channels_used]. *)
Fixpoint channels_used (sent : list pydict) (s : list pyval)
  : outcome (list pyval) :=
  match sent with
  | [] => Ok s
  | notification :: sent' =>
      match iterate (default (PList [])
                       (dict_lookup notification (PStr "channels"))) with
      | Raise e => Raise e
      | Ok channels =>
          match set_update s channels with
          | Raise e => Raise e
          | Ok s' => channels_used sent' s'
          end
      end
  end.

(** [NotificationService.get_notification_stats]; 'channels_used' is
    [list(set)], whose order Python leaves open: the list holds the
    channels in the order they were first met. *)
Definition get_notification_stats : M pydict :=
  let* self := get_self in
  let sent := sent_notifications self in
  let total_sent := Z.of_nat (length sent) in
  match sent with
  | [] =>
      ret [(PStr "total_sent", PInt 0);
           (PStr "success_rate", PFloat 0);
           (PStr "channels_used", PList []);
           (PStr "last_sent", PNone)]
  | _ =>
      let successful := count_sent sent in
      let* used := lift (channels_used sent []) in
      ret [(PStr "total_sent", PInt total_sent);
           (PStr "success_rate",
            PFloat (if 0 <? total_sent
                    then (inject_Z successful / inject_Z total_sent
                          * inject_Z 100)%Q
                    else 0%Q));
           (PStr "channels_used", PList used);
           (PStr "last_sent",
            match last sent with
            | Some n => default PNone (dict_lookup n (PStr "sent_at"))
            | None => PNone
            end)]
  end.

(** The result recorded for a channel that is not enabled. *)
Definition disabled_result : pyval :=
  PDict [(PStr "status", PStr "disabled");
         (PStr "message", PStr "Channel not enabled")].

(** The worlds a service can be in: it was constructed by [__init__]
    and then used through [send_notification], each call with a
    dictionary of its own (the history holds the dictionaries handed
    in, not copies of them). *)
Inductive reachable `{PyLib} : world NotificationService → Prop :=
| reachable_init (config : option pydict) (w : world unit) :
    reachable (__init__ config w)
| reachable_send (w : world NotificationService) (notification : pydict) :
    reachable w →
    reachable (send_notification notification w).2.

(** A record as [send_notification] leaves it in the history. *)
Definition record_ok (n : pydict) : Prop :=
  (dict_lookup n (PStr "status") = Some (PStr "sent") ∨
   dict_lookup n (PStr "status") = Some (PStr "failed")) ∧
  has_key n "id" = true ∧ has_key n "created_at" = true ∧
  has_key n "results" = true ∧ has_key n "sent_at" = true ∧
  valid_notification n = true ∧ channels_ok n = true.

(** *** The audit alert *)

(** [_get_channels_for_priority]; the priorities are compared with
    ['critical'] and ['high'], the values of [NotificationPriority]. *)
Definition _get_channels_for_priority (priority : pyval) : list pyval :=
  if eq_str priority "critical" then
    PStr <$> (NotificationChannel_value <$> [EMAIL; SMS; SLACK; IN_APP])
  else if eq_str priority "high" then
    PStr <$> (NotificationChannel_value <$> [EMAIL; IN_APP])
  else PStr <$> (NotificationChannel_value <$> [IN_APP]).

(** [_format_audit_alert]: the text of the f-string, stripped. *)
Definition _format_audit_alert `{PyLib} (alert_data : pyval) : M string :=
  let* type := lift (get_method alert_data "type" (PStr "Unknown")) in
  let* severity := lift (get_method alert_data "severity" (PStr "Medium")) in
  let* description :=
    lift (get_method alert_data "description"
            (PStr "No description provided")) in
  let* t := now in
  ret (strip
         (nl +:+ "AUDIT ALERT" +:+ nl +:+ nl
          +:+ "Alert Type: " +:+ str_of type +:+ nl
          +:+ "Severity: " +:+ str_of severity +:+ nl
          +:+ "Description: " +:+ str_of description +:+ nl +:+ nl
          +:+ "Please review this alert and take appropriate action."
          +:+ nl +:+ nl
          +:+ "Generated at: " +:+ strftime t "%Y-%m-%d %H:%M:%S" +:+ nl
          +:+ "        ")).

(** [NotificationService.send_audit_alert]; nothing here catches what
    [alert_data.get] raises. *)
Definition send_audit_alert `{PyLib} (alert_data recipients priority : pyval)
  : M pydict :=
  let channels := _get_channels_for_priority priority in
  let* title := lift (get_method alert_data "title" (PStr "Unknown Alert")) in
  let* content := _format_audit_alert alert_data in
  let notification :=
    [(PStr "type", PStr "audit_alert");
     (PStr "priority", priority);
     (PStr "recipients", recipients);
     (PStr "channels", PList channels);
     (PStr "subject", PStr ("Audit Alert: " +:+ str_of title));
     (PStr "content", PStr content);
     (PStr "data", alert_data)] in
  send_notification notification.

(** *** The deadline reminder *)

(** [_format_deadline_reminder]: the text of the f-string, stripped. *)
Definition _format_deadline_reminder `{PyLib} (deadline_info : pyval)
    (days_until : Z) : M string :=
  let urgency := if days_until <=? 1 then "URGENT" else "REMINDER" in
  let* task_name :=
    lift (get_method deadline_info "task_name" (PStr "Audit Task")) in
  let* deadline_date :=
    lift (get_method deadline_info "deadline_date" (PStr "Not specified")) in
  let* task_id := lift (get_method deadline_info "task_id" (PStr "N/A")) in
  ret (strip
         (nl +:+ urgency +:+ ": DEADLINE APPROACHING" +:+ nl +:+ nl
          +:+ "Task: " +:+ str_of task_name +:+ nl
          +:+ "Deadline: " +:+ str_of deadline_date +:+ nl
          +:+ "Days Remaining: " +:+ str_of (PInt days_until) +:+ nl +:+ nl
          +:+ (if days_until <=? 1 then "IMMEDIATE ACTION REQUIRED"
               else "Please ensure timely completion.")
          +:+ nl +:+ nl
          +:+ "Task ID: " +:+ str_of task_id +:+ nl
          +:+ "        ")).

(** [{**deadline_info, 'days_until': days_until}]: only a mapping can
    be unpacked. *)
Definition with_days_until (deadline_info : pyval) (days_until : Z)
  : outcome pyval :=
  match deadline_info with
  | PDict d => Ok (PDict (dict_set d (PStr "days_until") (PInt days_until)))
  | _ => Raise (TypeError
                  ("'" +:+ type_name deadline_info
                   +:+ "' object is not a mapping"))
  end.

(** [NotificationService.send_deadline_reminder] *)
Definition send_deadline_reminder `{PyLib} (deadline_info recipients : pyval)
    (days_until : Z) : M pydict :=
  let priority := PStr (if days_until <=? 1 then "critical" else "high") in
  let channels := _get_channels_for_priority priority in
  let subject :=
    "Deadline Reminder: " +:+ str_of (PInt days_until)
    +:+ " days remaining" in
  let* content := _format_deadline_reminder deadline_info days_until in
  let* data := lift (with_days_until deadline_info days_until) in
  let notification :=
    [(PStr "type", PStr "deadline_reminder");
     (PStr "priority", priority);
     (PStr "recipients", recipients);
     (PStr "channels", PList channels);
     (PStr "subject", PStr subject);
     (PStr "content", PStr content);
     (PStr "data", data)] in
  send_notification notification.

End Notification.

(** A stand-in for the library functions, to run the model on concrete
    inputs. *)
Definition sample_lib : PyLib :=
  {| md5_hexdigest := λ s, "md5:" +:+ s;
     json_dumps_sorted := λ v,
       match v with
       | PDict [(_, _); (_, PList l)] =>
           String.concat ","
             (omap (λ x, match x with PStr s => Some s | _ => None end) l)
       | _ => ""
       end;
     isoformat := λ t, "";
     strftime := λ t fmt, "";
     str_of := λ v, match v with PStr s => s | _ => type_name v end |}.

(** A clock that advances one second per reading, an empty log. *)
Definition sample_world {St} (s : St) : world St :=
  World (λ n, Z.of_nat n * 1000000) 0 [] s.

(** *** Sample services for [Compliance] *)

(** Some data to check. *)
Definition sample_data : pyval :=
  PDict [(PStr "department", PStr "finance"); (PStr "records", PInt 120)].

(** The service [ComplianceService()] *)
Definition fresh_service : world Compliance.ComplianceService :=
  Compliance.__init__ None (sample_world tt).

(** An item as [check_compliance] builds them. *)
Definition seed_item : Compliance.cache_item :=
  {| Compliance.result :=
       {| Compliance.overall_status := "compliant";
          Compliance.checked_at := "";
          Compliance.frameworks_checked := ["ISO27001"];
          Compliance.framework_results :=
            {["ISO27001" := Compliance._check_iso27001_compliance sample_data]};
          Compliance.issues := [];
          Compliance.recommendations := [];
          Compliance.compliance_score := 90 # 100 |};
     Compliance.cached_at := Some 0 |}.

(** The same service with one item put into its cache. *)
Definition seeded_service : world Compliance.ComplianceService :=
  World (w_clock fresh_service) (w_ticks fresh_service) (w_log fresh_service)
    (Compliance.with_cache (w_self fresh_service)
       (Some {["md5:ISO27001" := seed_item]})).

(** ... and after a first call for the framework 'SOX'. *)
Definition after_first_call : world Compliance.ComplianceService :=
  (@Compliance.check_compliance sample_lib sample_data (Some ["SOX"])
     seeded_service).2.

(** The same moment with the clock two hours ahead. *)
Definition two_hours_later {St} (w : world St) : world St :=
  World (λ n, w_clock w n + 7200000000) (w_ticks w) (w_log w) (w_self w).

(** *** Sample service for [AI] *)

(** The service [AIService()] *)
Definition default_ai_service : world AI.AIService :=
  AI.__init__ None (sample_world tt).

(** A document of 106 characters. *)
Definition long_document : string :=
  "ledger" +:+ String.concat "" (replicate 10 "0123456789").

(** *** Sample services for [Notification] *)

(** The service [NotificationService()] *)
Definition default_notifier : world Notification.NotificationService :=
  Notification.__init__ None (sample_world tt).

(** The service [NotificationService({'slack': None})] *)
Definition notifier_without_slack
  : world Notification.NotificationService :=
  Notification.__init__ (Some [(PStr "slack", PNone)]) (sample_world tt).

(** A notification with every required field. *)
Definition sample_notification : pydict :=
  [(PStr "recipients", PList [PStr "auditor@company.com"]);
   (PStr "subject", PStr "Audit Alert");
   (PStr "content", PStr "Please review");
   (PStr "channels", PList [PStr "email"; PStr "sms"])].

(** The same with [None] for its channels. *)
Definition notification_without_channels : pydict :=
  [(PStr "recipients", PList [PStr "auditor@company.com"]);
   (PStr "subject", PStr "Audit Alert");
   (PStr "content", PStr "Please review");
   (PStr "channels", PNone)].

(** A notification for a channel the service does not know. *)
Definition notification_by_fax : pydict :=
  [(PStr "recipients", PList [PStr "auditor@company.com"]);
   (PStr "subject", PStr "Audit Alert");
   (PStr "content", PStr "Please review");
   (PStr "channels", PList [PStr "fax"])].

(** The default service after it has sent [sample_notification]. *)
Definition after_sending : world Notification.NotificationService :=
  (@Notification.send_notification sample_lib sample_notification
     default_notifier).2.

(** The data of an alert. *)
Definition sample_alert : pydict :=
  [(PStr "title", PStr "Unusual login");
   (PStr "type", PStr "security");
   (PStr "severity", PStr "High")].

(** The data of a deadline. *)
Definition sample_deadline : pydict :=
  [(PStr "task_name", PStr "Quarterly review");
   (PStr "deadline_date", PStr "2024-03-31");
   (PStr "days_until", PInt 30)].

(** * Properties *)

(** ** Running the monad *)

Lemma bind_ok {St A B} (m : M St A) (k : A → M St B) w a w' :
  m w = (Ok a, w') → bind m k w = k a w'.
Proof. intros E. unfold bind. by rewrite E. Qed.

Lemma bind_raise {St A B} (m : M St A) (k : A → M St B) w e w' :
  m w = (Raise e, w') → bind m k w = (Raise e, w').
Proof. intros E. unfold bind. by rewrite E. Qed.

Lemma try_except_ok {St A} (m : M St A) h w a w' :
  m w = (Ok a, w') → try_except m h w = (Ok a, w').
Proof. intros E. unfold try_except. by rewrite E. Qed.

Lemma advance_0_nil {St} (w : world St) : advance w 0 [] = w.
Proof. destruct w. unfold advance. simpl. by rewrite app_nil_r. Qed.

Lemma advance_advance {St} (w : world St) n1 lg1 n2 lg2 :
  advance (advance w n1 lg1) n2 lg2 = advance w (n2 + n1) (lg1 ++ lg2).
Proof.
  unfold advance. simpl. f_equal; [lia | by rewrite app_assoc].
Qed.

Section compliance.
Context `{PyLib}.
Import Compliance.

(** *** The sort behind the cache key *)

Lemma sorted_Permutation (l1 l2 : list string) :
  l1 ≡ₚ l2 → sorted l1 = sorted l2.
Proof.
  intros Hp. unfold sorted.
  apply (Sorted_unique String.le).
  - apply Sorted_merge_sort, _.
  - apply Sorted_merge_sort, _.
  - by rewrite !merge_sort_Permutation.
Qed.

(** C10.  [_generate_cache_key] does not see the order of the
    frameworks list: two lists that are permutations of each other give
    the same key, whatever the data. *)
Theorem generate_cache_key_permutation (data : pyval)
    (frameworks1 frameworks2 : list string) :
  frameworks1 ≡ₚ frameworks2 →
  _generate_cache_key data frameworks1 = _generate_cache_key data frameworks2.
Proof.
  intros Hp. unfold _generate_cache_key.
  by rewrite (sorted_Permutation _ _ Hp).
Qed.

(** *** The framework checks *)

Lemma framework_checks_lookup (framework : string) :
  default _check_generic_compliance (framework_checks !! framework) =
  if decide (framework = "SOX") then _check_sox_compliance
  else if decide (framework = "GDPR") then _check_gdpr_compliance
  else if decide (framework = "ISO27001") then _check_iso27001_compliance
  else _check_generic_compliance.
Proof.
  unfold framework_checks.
  repeat (rewrite lookup_insert; case_decide; subst; [by repeat case_decide|]).
  rewrite lookup_empty. by repeat case_decide.
Qed.

(** C3.  The result of [_check_framework_compliance] is the same for any
    two data dictionaries, and its score is 0.85 for 'SOX', 0.75 for
    'GDPR', 0.90 for 'ISO27001' and 0.50 for every other framework. *)
Theorem check_framework_compliance_score (data1 data2 : pyval)
    (framework : string) (w : world ComplianceService) :
  _check_framework_compliance data1 framework w
  = _check_framework_compliance data2 framework w ∧
  ∃ r : framework_result,
    (_check_framework_compliance data1 framework w).1 = Ok r ∧
    fr_score r =
      if decide (framework = "SOX") then 85 # 100
      else if decide (framework = "GDPR") then 75 # 100
      else if decide (framework = "ISO27001") then 90 # 100
      else 50 # 100.
Proof.
  unfold _check_framework_compliance, bind, log, ret. simpl.
  rewrite framework_checks_lookup.
  repeat case_decide; (split; [reflexivity|]); eexists;
    (split; reflexivity).
Qed.


(** *** The loop over the frameworks and the fresh result *)

Lemma set_framework_results_id (r : compliance_results) :
  set_framework_results r (framework_results r) = r.
Proof. by destruct r. Qed.

Lemma check_one_spec (data : pyval) (fw : string)
    (st : compliance_results * Q) (w : world ComplianceService) :
  ∃ fr tot lg,
    check_one data fw st w
    = (Ok (set_framework_results st.1 fr, tot), advance w 0 lg) ∧
    (fw ∉ supported_frameworks (w_self w) →
     fr = framework_results st.1 ∧ tot = st.2).
Proof.
  unfold check_one, bind, get_self. simpl.
  case_bool_decide as Hin.
  - unfold _check_framework_compliance, bind, log, ret. simpl.
    eexists _, _, _. split; [reflexivity | done].
  - unfold log, ret. simpl. destruct st as [r tot].
    exists (framework_results r), tot. eexists. split; [|done].
    simpl. by rewrite set_framework_results_id.
Qed.

Lemma loop_spec (data : pyval) (fws : list string)
    (st : compliance_results * Q) (w : world ComplianceService) :
  ∃ fr tot lg,
    for_each fws (check_one data) st w
    = (Ok (set_framework_results st.1 fr, tot), advance w 0 lg) ∧
    (unsupported (w_self w) fws → fr = framework_results st.1 ∧ tot = st.2).
Proof.
  revert st w. induction fws as [|fw fws IH]; intros st w.
  - destruct st as [r tot]. exists (framework_results r), tot, []. simpl.
    unfold ret. by rewrite advance_0_nil, set_framework_results_id.
  - destruct (check_one_spec data fw st w) as (fr1 & tot1 & lg1 & E1 & U1).
    destruct (IH (set_framework_results st.1 fr1, tot1) (advance w 0 lg1))
      as (fr2 & tot2 & lg2 & E2 & U2).
    exists fr2, tot2, (lg1 ++ lg2). split.
    + simpl. rewrite (bind_ok _ _ _ _ _ E1), E2.
      by rewrite advance_advance.
    + intros [Hfw Hfws]%Forall_cons.
      destruct (U1 Hfw) as [-> ->]. destruct (U2 Hfws) as [-> ->]. done.
Qed.

Lemma now_spec {St} (w : world St) :
  now w = (Ok (w_clock w (w_ticks w)), advance w 1 []).
Proof. unfold now, advance. simpl. by rewrite app_nil_r. Qed.

Lemma log_spec {St} l text args (w : world St) :
  log l text args w = (Ok tt, advance w 0 [LogRecord l text args]).
Proof. done. Qed.

Lemma compute_results_spec (data : pyval) (fws : list string)
    (w : world ComplianceService) :
  ∃ r lg,
    compute_results data fws w = (Ok r, advance w 1 lg) ∧
    checked_at r = isoformat (w_clock w (w_ticks w)) ∧
    frameworks_checked r = fws ∧
    (unsupported (w_self w) fws →
     framework_results r = ∅ ∧ compliance_score r = 0%Q ∧
     overall_status r = "non_compliant").
Proof.
  unfold compute_results.
  rewrite (bind_ok _ _ _ _ _ (now_spec w)).
  match goal with |- context [for_each fws _ ?st] =>
    destruct (loop_spec data fws st (advance w 1 []))
      as (fr & tot & lg & E & U) end.
  rewrite (bind_ok _ _ _ _ _ E), advance_advance. unfold ret.
  eexists _, _. split; [reflexivity|].
  split; [by case_bool_decide|]. split; [by case_bool_decide|].
  intros Hu. destruct (U Hu) as [-> ->]. simpl.
  rewrite bool_decide_eq_true_2 by done. done.
Qed.

(** *** The cache *)

Lemma cache_probe_miss (key : string) (w : world ComplianceService) :
  cached (w_self w) key = None →
  cache_probe key w = (Ok None, w).
Proof.
  unfold cached, cache_probe, bind, get_self. simpl. intros ->.
  by destruct (cache_truthy _).
Qed.

Lemma cache_probe_item (key : string) (w : world ComplianceService) item :
  cached (w_self w) key = Some item →
  cache_probe key w =
  match cached_at item with
  | None => (Ok None, w)
  | Some at_ =>
      if bool_decide (w_clock w (w_ticks w) - at_ < cache_ttl (w_self w))
      then (Ok (Some (result item)),
            advance w 1
              [LogRecord INFO "Returning cached compliance result" []])
      else (Ok None, advance w 1 [])
  end.
Proof.
  unfold cached, cache_probe, bind, get_self. simpl. intros E.
  assert (cache_truthy (_compliance_cache (w_self w)) = true) as ->.
  { destruct (_compliance_cache (w_self w)) as [m|]; simpl in *.
    - apply negb_true_iff, bool_decide_eq_false. intros ->.
      by rewrite lookup_empty in E.
    - by rewrite lookup_empty in E. }
  rewrite E. unfold _is_cache_valid.
  destruct (cached_at item) as [at_|]; [|done].
  unfold bind, get_self, now, ret. simpl. fold (cache_ttl (w_self w)).
  case_bool_decide; unfold log, advance; simpl; [done|].
  by rewrite app_nil_r.
Qed.

Lemma cache_store_spec (key : string) (r : compliance_results)
    (w : world ComplianceService) :
  cache_store key r w =
  if cache_truthy (_compliance_cache (w_self w)) then
    (Ok tt,
     World (w_clock w) (S (w_ticks w)) (w_log w)
       (with_cache (w_self w)
          (Some (<[key := {| result := r;
                             cached_at := Some (w_clock w (w_ticks w)) |}]>
                   (default ∅ (_compliance_cache (w_self w)))))))
  else (Ok tt, w).
Proof.
  unfold cache_store, bind, get_self. simpl.
  by destruct (cache_truthy _).
Qed.

(** A call answered from the cache. *)
Lemma check_compliance_hit (data : pyval) (frameworks : option (list string))
    (w : world ComplianceService) item at_ :
  cached (w_self w) (key_of (w_self w) data frameworks) = Some item →
  cached_at item = Some at_ →
  w_clock w (w_ticks w) - at_ < cache_ttl (w_self w) →
  check_compliance data frameworks w =
  (Ok (result item),
   advance w 1 [log_checking (w_self w) frameworks;
                LogRecord INFO "Returning cached compliance result" []]).
Proof.
  intros Hc Hat Hlt. unfold check_compliance.
  apply try_except_ok.
  unfold bind at 1, get_self. simpl.
  rewrite (bind_ok _ _ _ _ _ (log_spec _ _ _ _)).
  erewrite bind_ok; last first.
  { rewrite (cache_probe_item _ _ item); [|exact Hc].
    simpl. rewrite Hat, bool_decide_eq_true_2; [reflexivity | exact Hlt]. }
  unfold ret. by rewrite advance_advance.
Qed.

(** A call not answered from the cache: [n] is 0 or 1, the clock
    readings the probe took. *)
Lemma check_compliance_miss (data : pyval) (frameworks : option (list string))
    (w : world ComplianceService) (n : nat) lg :
  cache_probe (key_of (w_self w) data frameworks)
    (advance w 0 [log_checking (w_self w) frameworks])
  = (Ok None, advance w n lg) →
  ∃ r lg',
    compute_results data (effective_frameworks (w_self w) frameworks)
      (advance w n lg) = (Ok r, advance w (S n) lg') ∧
    checked_at r = isoformat (w_clock w (n + w_ticks w)) ∧
    (unsupported (w_self w) (effective_frameworks (w_self w) frameworks) →
     framework_results r = ∅ ∧ compliance_score r = 0%Q ∧
     overall_status r = "non_compliant") ∧
    check_compliance data frameworks w =
    (Ok r,
     if cache_truthy (_compliance_cache (w_self w)) then
       World (w_clock w) (S (S n) + w_ticks w)
         (w_log w ++ lg' ++
            [LogRecord INFO "Compliance check completed with score: {:.2f}"
               [PFloat (compliance_score r)]])
         (with_cache (w_self w)
            (Some (<[key_of (w_self w) data frameworks :=
                       {| result := r;
                          cached_at :=
                            Some (w_clock w (S n + w_ticks w)) |}]>
                     (default ∅ (_compliance_cache (w_self w))))))
     else
       advance w (S n)
         (lg' ++
            [LogRecord INFO "Compliance check completed with score: {:.2f}"
               [PFloat (compliance_score r)]])).
Proof.
  intros Hp.
  destruct (compute_results_spec data
              (effective_frameworks (w_self w) frameworks) (advance w n lg))
    as (r & lg1 & E & Hat & _ & Hu).
  rewrite advance_advance in E.
  exists r, (lg ++ lg1). split; [exact E|].
  split; [exact Hat|]. split; [exact Hu|].
  unfold check_compliance. apply try_except_ok.
  unfold bind at 1, get_self. simpl.
  rewrite (bind_ok _ _ _ _ _ (log_spec _ _ _ _)).
  fold (key_of (w_self w) data frameworks).
  fold (log_checking (w_self w) frameworks).
  rewrite (bind_ok _ _ _ _ _ Hp).
  rewrite (bind_ok _ _ _ _ _ E).
  unfold bind at 1. rewrite cache_store_spec. simpl.
  destruct (cache_truthy _).
  - unfold bind, log, ret. simpl. by rewrite <- !app_assoc.
  - unfold bind, log, ret, advance. simpl. by rewrite <- !app_assoc.
Qed.

(** What one call does to the world. *)
Lemma check_compliance_step (data : pyval) (frameworks : option (list string))
    (w : world ComplianceService) :
  ∃ r w',
    check_compliance data frameworks w = (Ok r, w') ∧
    w_clock w' = w_clock w ∧ (w_ticks w ≤ w_ticks w')%nat ∧
    (w_self w' = w_self w ∨
     ∃ n, (w_ticks w ≤ n)%nat ∧
       cache_truthy (_compliance_cache (w_self w)) = true ∧
       checked_at r = isoformat (w_clock w n) ∧
       w_self w' =
       with_cache (w_self w)
         (Some (<[key_of (w_self w) data frameworks :=
                    {| result := r; cached_at := Some (w_clock w (S n)) |}]>
                  (default ∅ (_compliance_cache (w_self w)))))).
Proof.
  set (key := key_of (w_self w) data frameworks).
  set (w1 := advance w 0 [log_checking (w_self w) frameworks]).
  assert (∃ n lg, (cache_probe key w1 = (Ok None, advance w n lg)) ∨
                  (∃ item, cache_probe key w1
                           = (Ok (Some (result item)), advance w n lg)))
    as (n & lg & [Hmiss | [item Hhit]]).
  { destruct (cached (w_self w) key) as [item|] eqn:Hc.
    - rewrite (cache_probe_item key w1 item Hc).
      destruct (cached_at item) as [at_|].
      + case_bool_decide; unfold w1; rewrite advance_advance;
          eexists _, _; [right; by eexists | by left].
      + eexists 0%nat, _. by left.
    - rewrite (cache_probe_miss key w1 Hc). eexists 0%nat, _. by left. }
  - destruct (check_compliance_miss data frameworks w n lg Hmiss)
      as (r & lg' & _ & Hat & _ & E).
    rewrite E. eexists _, _. split; [reflexivity|].
    destruct (cache_truthy _) eqn:Ht; simpl.
    + split; [done|]. split; [lia|]. right. exists (n + w_ticks w)%nat.
      split; [lia|]. done.
    + split; [done|]. split; [lia|]. by left.
  - exists (result item), (advance w n lg). split; [|simpl; split; [done|]].
    + unfold check_compliance. apply try_except_ok.
      unfold bind at 1, get_self. simpl.
      rewrite (bind_ok _ _ _ _ _ (log_spec _ _ _ _)).
      fold key. fold w1. by rewrite (bind_ok _ _ _ _ _ Hhit).
    + split; [lia | by left].
Qed.



(** *** Services made by [__init__] *)

(** A service made by [__init__] never has an item in its cache: the
    cache starts as the empty dictionary, which is false in the tests
    [if self._compliance_cache], so that nothing is ever stored. *)
Lemma reachable_cache_falsy (w : world ComplianceService) :
  reachable w →
  cache_truthy (_compliance_cache (w_self w)) = false ∧
  supported_frameworks (w_self w) = _get_supported_frameworks.
Proof.
  induction 1 as [cfg w0 | w data frameworks Hr [IHc IHs]].
  - simpl. split; [|done]. by destruct (default true _).
  - destruct (check_compliance_step data frameworks w)
      as (r & w' & E & _ & _ & [Hs | (n & _ & Ht & _)]).
    + rewrite E. simpl. by rewrite Hs.
    + congruence.
Qed.

Lemma reachable_cached_none (w : world ComplianceService) (key : string) :
  reachable w → cached (w_self w) key = None.
Proof.
  intros [Ht _]%reachable_cache_falsy. unfold cached.
  destruct (_compliance_cache (w_self w)) as [m|]; simpl in *.
  - apply negb_false_iff, bool_decide_eq_true in Ht as ->.
    apply lookup_empty.
  - apply lookup_empty.
Qed.

(** Hence every call on such a service computes its result afresh,
    also when the same call was made a moment before. *)
Lemma reachable_recomputes (data : pyval) (frameworks : option (list string))
    (w : world ComplianceService) :
  reachable w →
  ∃ r lg,
    compute_results data (effective_frameworks (w_self w) frameworks)
      (advance w 0 [log_checking (w_self w) frameworks])
    = (Ok r, advance w 1 lg) ∧
    checked_at r = isoformat (w_clock w (w_ticks w)) ∧
    check_compliance data frameworks w =
    (Ok r,
     advance w 1
       (lg ++ [LogRecord INFO "Compliance check completed with score: {:.2f}"
                 [PFloat (compliance_score r)]])).
Proof.
  intros Hr.
  pose proof (reachable_cached_none w (key_of (w_self w) data frameworks) Hr)
    as Hc.
  destruct (reachable_cache_falsy w Hr) as [Hfalsy _].
  assert (cache_probe (key_of (w_self w) data frameworks)
            (advance w 0 [log_checking (w_self w) frameworks])
          = (Ok None, advance w 0 [log_checking (w_self w) frameworks]))
    as Hp by (by apply cache_probe_miss).
  destruct (check_compliance_miss _ _ _ _ _ Hp)
    as (r & lg & E & Hat & _ & Hrun).
  exists r, lg. split; [exact E|]. split; [exact Hat|].
  by rewrite Hrun, Hfalsy.
Qed.

End compliance.

(** *** The properties at sample inputs *)

Lemma generate_cache_key_permutation_witness :
  ["SOX"; "GDPR"] ≡ₚ ["GDPR"; "SOX"] ∧
  @Compliance._generate_cache_key sample_lib sample_data ["SOX"; "GDPR"]
  = @Compliance._generate_cache_key sample_lib sample_data ["GDPR"; "SOX"].
Proof.
  assert (["SOX"; "GDPR"] ≡ₚ ["GDPR"; "SOX"]) as Hp by apply Permutation_swap.
  split; [exact Hp|].
  apply (@generate_cache_key_permutation sample_lib sample_data _ _ Hp).
Defined.





(** ** [AIService] *)

Section ai.
Context `{PyLib}.
Import AI.

Lemma hundredths_range (content : string) : 0 ≤ hundredths content < 100.
Proof. unfold hundredths. apply Z.mod_pos_bound. lia. Qed.

Lemma base_score_le (r : Z) :
  Qle_bool (1 # 10) (inject_Z r / inject_Z 100) = bool_decide (10 ≤ r).
Proof.
  case_bool_decide as Hle.
  - apply Qle_bool_iff. unfold Qle, Qdiv, Qmult, Qinv, inject_Z. simpl. lia.
  - apply not_true_is_false. intros Hq%Qle_bool_iff. apply Hle.
    unfold Qle, Qdiv, Qmult, Qinv, inject_Z in Hq. simpl in Hq. lia.
Qed.

Lemma base_score_ge (r a : Z) :
  Qle_bool (inject_Z r / inject_Z 100) (a # 100) = bool_decide (r ≤ a).
Proof.
  case_bool_decide as Hle.
  - apply Qle_bool_iff. unfold Qle, Qdiv, Qmult, Qinv, inject_Z. simpl. lia.
  - apply not_true_is_false. intros Hq%Qle_bool_iff. apply Hle.
    unfold Qle, Qdiv, Qmult, Qinv, inject_Z in Hq. simpl in Hq. lia.
Qed.

(** The three cases of the clamp. *)
Lemma calculate_risk_score_cases (content : string) :
  let r := hundredths content in
  _calculate_risk_score content =
  if bool_decide (10 ≤ r) then
    if bool_decide (r ≤ 95) then (inject_Z r / inject_Z 100)%Q else 95 # 100
  else 1 # 10.
Proof.
  intros r. unfold _calculate_risk_score, py_max, py_min. fold (hundredths content).
  fold r. rewrite base_score_le. case_bool_decide as H10.
  - rewrite base_score_ge. by case_bool_decide.
  - reflexivity.
Qed.

(** C2, as it holds.  The risk score is [len(content) % 100 / 100]
    clamped to the interval from 0.1 to 0.95: it is
    [min(max(len(content) % 100, 10), 95) / 100], which is the unclamped
    quotient exactly when [10 <= len(content) % 100 <= 95]; and this is
    the 'risk_score' field of what [analyze_document] returns. *)
Theorem risk_score_clamped (content : string) (document_type : string)
    (w : world AIService) :
  let r := hundredths content in
  (_calculate_risk_score content
   == inject_Z (Z.min (Z.max r 10) 95) / inject_Z 100)%Q ∧
  ((_calculate_risk_score content == inject_Z r / inject_Z 100)%Q
   ↔ 10 ≤ r ≤ 95) ∧
  ∃ res w',
    analyze_document content document_type w = (Ok res, w') ∧
    risk_score res = _calculate_risk_score content.
Proof.
  intros r. pose proof (hundredths_range content) as Hr. fold r in Hr.
  split; [|split]; [| |eexists _, _; split; reflexivity];
    rewrite calculate_risk_score_cases; fold r.
  - repeat case_bool_decide.
    + by rewrite Z.max_l, Z.min_l by lia.
    + rewrite Z.max_l, Z.min_r by lia. reflexivity.
    + rewrite Z.max_r, Z.min_l by lia. reflexivity.
  - repeat case_bool_decide.
    + split; [lia | reflexivity].
    + split; [|lia]. unfold Qeq, Qdiv, Qmult, Qinv, inject_Z. simpl. lia.
    + split; [|lia]. unfold Qeq, Qdiv, Qmult, Qinv, inject_Z. simpl. lia.
Qed.

(** C7.  [generate_audit_recommendations] returns the same list for any
    two inputs: two dictionaries, with ids 1 and 2 and priorities 'high'
    and 'medium'. *)
Theorem generate_audit_recommendations_fixed (audit_data1 audit_data2 : pyval)
    (w : world AIService) :
  generate_audit_recommendations audit_data1 w
  = generate_audit_recommendations audit_data2 w ∧
  ∃ r1 r2,
    (generate_audit_recommendations audit_data1 w).1
    = Ok [PDict r1; PDict r2] ∧
    dict_lookup r1 (PStr "id") = Some (PInt 1) ∧
    dict_lookup r1 (PStr "priority") = Some (PStr "high") ∧
    dict_lookup r2 (PStr "id") = Some (PInt 2) ∧
    dict_lookup r2 (PStr "priority") = Some (PStr "medium").
Proof.
  split; [reflexivity|]. eexists _, _. split; [reflexivity|]. by repeat split.
Qed.

End ai.

(** C2, as stated, fails for the empty document: the quotient is 0 and
    the score 0.1. *)
Lemma risk_score_of_empty_document :
  String.length "" = 0%nat ∧
  ∃ res,
    (@AI.analyze_document sample_lib "" "general" default_ai_service).1
    = Ok res ∧
    (AI.risk_score res == 1 # 10)%Q ∧
    ¬ (AI.risk_score res
       == inject_Z (Z.of_nat (String.length "") mod 100) / inject_Z 100)%Q.
Proof.
  split; [reflexivity|]. eexists. split; [reflexivity|].
  split; [reflexivity|]. vm_compute. discriminate.
Qed.

(** ** The two audit-log insert paths *)

Section audit.
Import Audit.

Lemma flush_rows_snoc (next_id t : Z) (objs : list AuditLog) (o : AuditLog) :
  flush_rows next_id t (objs ++ [o])
  = flush_rows next_id t objs
    ++ [flush_row (next_id + Z.of_nat (length objs)) t o].
Proof.
  revert next_id. induction objs as [|o' objs IH]; intros next_id.
  - simpl. by rewrite Z.add_0_r.
  - cbn [flush_rows app length]. rewrite IH, Nat2Z.inj_succ.
    by replace (next_id + 1 + Z.of_nat (length objs))
      with (next_id + Z.succ (Z.of_nat (length objs))) by lia.
Qed.

End audit.

(** ** [NotificationService] *)

Section notification.
Context `{PyLib}.
Import Notification.

(** *** Dictionaries with string keys *)

Lemma key_eqb_str (k : pyval) (s : string) :
  key_eqb k (PStr s) = true → k = PStr s.
Proof.
  destruct k; simpl; try discriminate.
  by intros ->%String.eqb_eq.
Qed.

Lemma key_eqb_str_ne (s t : string) :
  s ≠ t → key_eqb (PStr s) (PStr t) = false.
Proof. intros Hne. simpl. by apply String.eqb_neq. Qed.

Lemma dict_lookup_set_ne (d : pydict) (s t : string) (v : pyval) :
  s ≠ t →
  dict_lookup (dict_set d (PStr s) v) (PStr t) = dict_lookup d (PStr t).
Proof.
  intros Hne. induction d as [|[k x] d IH]; simpl.
  - by apply String.eqb_neq in Hne as ->.
  - destruct (key_eqb k (PStr s)) eqn:E; simpl.
    + apply key_eqb_str in E as ->. by rewrite key_eqb_str_ne.
    + by rewrite IH.
Qed.

Lemma dict_set_values (d : pydict) (k v : pyval) (P : pyval → Prop) :
  Forall P (d.*2) → P v → Forall P ((dict_set d k v).*2).
Proof.
  intros Hd Hv. induction d as [|[k' x] d IH]; simpl.
  - by constructor.
  - apply Forall_cons in Hd as [Hx Hd]. destruct (key_eqb k' k); simpl.
    + by constructor.
    + constructor; [done | by apply IH].
Qed.

(** *** The handlers *)

Lemma email_loop_spec (recipients : list pyval)
    (w : world NotificationService) :
  for_each recipients
    (λ recipient _, log DEBUG "Email sent to: {}" [recipient]) tt w
  = (Ok tt, advance w 0 (email_records recipients)).
Proof.
  revert w. induction recipients as [|r rs IH]; intros w; simpl.
  - unfold ret. by rewrite advance_0_nil.
  - unfold bind at 1. rewrite log_spec, IH. by rewrite advance_advance.
Qed.

Lemma get_self_spec {St} (w : world St) : get_self w = (Ok (w_self w), w).
Proof. done. Qed.

Lemma lift_ok {St A} (o : outcome A) (a : A) (w : world St) :
  o = Ok a → lift o w = (Ok a, w).
Proof. by intros ->. Qed.

Lemma lift_subscript_spec {St} (d : pydict) (k : string) (v : pyval)
    (w : world St) :
  dict_lookup d (PStr k) = Some v →
  lift (subscript (PDict d) k) w = (Ok v, w).
Proof. unfold lift, subscript. by intros ->. Qed.

Lemma len_recipients_spec (notification : pydict) (recipients : list pyval)
    (w : world NotificationService) :
  dict_lookup notification (PStr "recipients") = Some (PList recipients) →
  len_recipients notification w = (Ok (Z.of_nat (length recipients)), w).
Proof.
  intros Hrec. unfold len_recipients, lift, subscript, bind.
  by rewrite Hrec.
Qed.

Lemma send_email_success (notification : pydict) (recipients : list pyval)
    (w : world NotificationService) :
  dict_lookup notification (PStr "recipients") = Some (PList recipients) →
  ∃ r lg,
    _send_email notification w = (Ok r, advance w 1 lg) ∧
    succeeded r ∧ no_error lg.
Proof.
  intros Hrec. unfold _send_email. eexists _, _. split.
  - apply try_except_ok.
    rewrite (bind_ok _ _ _ _ _ (get_self_spec _)).
    rewrite (bind_ok _ _ _ _ _ (len_recipients_spec _ _ _ Hrec)).
    rewrite (bind_ok _ _ _ _ _ (log_spec _ _ _ _)).
    rewrite (bind_ok _ _ _ _ _ (lift_subscript_spec _ _ _ _ Hrec)).
    rewrite (bind_ok _ _ _ _ _
               (lift_ok (iterate (PList recipients)) recipients _ eq_refl)).
    rewrite (bind_ok _ _ _ _ _ (email_loop_spec _ _)), advance_advance.
    rewrite (bind_ok _ _ _ _ _ (len_recipients_spec _ _ _ Hrec)).
    rewrite (bind_ok _ _ _ _ _ (now_spec _)), advance_advance.
    unfold ret. reflexivity.
  - split; [by eexists|].
    unfold no_error, email_records. simpl. constructor; [done|].
    apply Forall_app. split; [|by constructor].
    apply Forall_fmap, Forall_forall. done.
Qed.

Lemma send_sms_success (notification : pydict) (recipients : list pyval)
    (w : world NotificationService) :
  dict_lookup notification (PStr "recipients") = Some (PList recipients) →
  ∃ r lg,
    _send_sms notification w = (Ok r, advance w 1 lg) ∧
    succeeded r ∧ no_error lg.
Proof.
  intros Hrec. unfold _send_sms. eexists _, [_]. split.
  - apply try_except_ok.
    unfold bind, get_self, len_recipients, lift, subscript, len, log, now,
      ret, advance. simpl. rewrite Hrec. simpl. reflexivity.
  - split; [by eexists | by constructor].
Qed.

Lemma send_in_app_success (notification : pydict) (recipients : list pyval)
    (w : world NotificationService) :
  dict_lookup notification (PStr "recipients") = Some (PList recipients) →
  ∃ r lg,
    _send_in_app notification w = (Ok r, advance w 1 lg) ∧
    succeeded r ∧ no_error lg.
Proof.
  intros Hrec. unfold _send_in_app. eexists _, [_]. split.
  - apply try_except_ok.
    unfold bind, get_self, len_recipients, lift, subscript, len, log, now,
      ret, advance. simpl. rewrite Hrec. simpl. reflexivity.
  - split; [by eexists | by constructor].
Qed.

Lemma send_slack_success (notification : pydict)
    (w : world NotificationService) :
  slack_config_ok (w_self w) = true →
  ∃ r lg,
    _send_slack notification w = (Ok r, advance w 1 lg) ∧
    succeeded r ∧ no_error lg.
Proof.
  unfold slack_config_ok. intros Hok. unfold _send_slack.
  destruct (config_section (w_self w) "slack") as [| | | | | |d] eqn:E;
    try discriminate.
  eexists _, [_]. split.
  - apply try_except_ok.
    unfold bind, get_self, lift, get_method, log, now, ret, advance. simpl.
    rewrite E. reflexivity.
  - split; [by eexists | by constructor].
Qed.

Lemma len_endpoints_spec (d : pydict) (w : world NotificationService) :
  sized (default (PList []) (dict_lookup d (PStr "endpoints"))) = true →
  ∃ n, len_endpoints (PDict d) w = (Ok n, w).
Proof.
  intros Hs. unfold len_endpoints, lift, get_method, bind.
  destruct (default _ _); try discriminate; by eexists.
Qed.

Lemma send_webhook_success (notification : pydict)
    (w : world NotificationService) :
  webhook_config_ok (w_self w) = true →
  ∃ r lg,
    _send_webhook notification w = (Ok r, advance w 1 lg) ∧
    succeeded r ∧ no_error lg.
Proof.
  unfold webhook_config_ok. intros Hok. unfold _send_webhook.
  destruct (config_section (w_self w) "webhook") as [| | | | | |d] eqn:E;
    try discriminate.
  destruct (len_endpoints_spec d w Hok) as [n Hn].
  destruct (len_endpoints_spec d
              (advance w 0
                 [LogRecord INFO
                    "Sending webhook notifications to {} endpoints"
                    [PInt n]]) Hok) as [n' Hn'].
  eexists _, [_]. split.
  - apply try_except_ok.
    rewrite (bind_ok _ _ _ _ _ (get_self_spec _)), E.
    rewrite (bind_ok _ _ _ _ _ Hn).
    rewrite (bind_ok _ _ _ _ _ (log_spec _ _ _ _)).
    rewrite (bind_ok _ _ _ _ _ Hn').
    rewrite (bind_ok _ _ _ _ _ (now_spec _)), advance_advance.
    unfold ret. reflexivity.
  - split; [by eexists | by constructor].
Qed.

(** C4, as it holds.  For a notification with a list under 'recipients'
    and each of the five channels, [_send_via_channel] runs the handler
    of the channel, and the handler returns a dictionary with status
    'success' without logging an error; for 'slack' and 'webhook' this
    needs the configuration to hold a dictionary (or nothing) for the
    channel, and for 'webhook' a value with a length (or nothing) under
    'endpoints'. *)
Theorem send_via_channel_success (notification : pydict)
    (recipients : list pyval) (channel : string)
    (w : world NotificationService) :
  dict_lookup notification (PStr "recipients") = Some (PList recipients) →
  channel ∈ channel_names →
  (channel = "slack" → slack_config_ok (w_self w) = true) →
  (channel = "webhook" → webhook_config_ok (w_self w) = true) →
  ∃ handler r lg,
    handlers_get channel_handlers (PStr channel) = Some handler ∧
    _send_via_channel notification (PStr channel) w = handler notification w ∧
    handler notification w = (Ok r, advance w 1 lg) ∧
    succeeded r ∧ no_error lg.
Proof.
  intros Hrec Hin Hslack Hwebhook. unfold channel_names in Hin. simpl in Hin.
  unfold _send_via_channel. unfold bind at 1. simpl.
  repeat (apply elem_of_cons in Hin as [->|Hin]); [..|by apply elem_of_nil in Hin];
    simpl.
  - destruct (send_email_success _ _ w Hrec) as (r & lg & ? & ? & ?).
    by exists _send_email, r, lg.
  - destruct (send_sms_success _ _ w Hrec) as (r & lg & ? & ? & ?).
    by exists _send_sms, r, lg.
  - destruct (send_slack_success notification w (Hslack eq_refl))
      as (r & lg & ? & ? & ?).
    by exists _send_slack, r, lg.
  - destruct (send_in_app_success _ _ w Hrec) as (r & lg & ? & ? & ?).
    by exists _send_in_app, r, lg.
  - destruct (send_webhook_success notification w (Hwebhook eq_refl))
      as (r & lg & ? & ? & ?).
    by exists _send_webhook, r, lg.
Qed.


(** *** Computations that leave [self] alone *)

Lemma keeps_ret {A} (a : A) (P : A → Prop) : P a → keeps (ret a) P.
Proof. intros Ha w. split; [done|]. intros a' [= <-]. done. Qed.

Lemma keeps_raise {A} (e : exn) (P : A → Prop) : keeps (raise e) P.
Proof. intros w. split; [done|]. intros a' [=]. Qed.

Lemma keeps_lift {A} (o : outcome A) : keeps (lift o) (λ _, True).
Proof. intros w. done. Qed.

Lemma keeps_log l text args : keeps (log l text args) (λ _, True).
Proof. intros w. done. Qed.

Lemma keeps_now : keeps now (λ _, True).
Proof. intros w. done. Qed.

Lemma keeps_get_self : keeps get_self (λ _, True).
Proof. intros w. done. Qed.

Lemma keeps_bind {A B} (m : M A) (k : A → M B) (P : A → Prop)
    (Q : B → Prop) :
  keeps m P → (∀ a, P a → keeps (k a) Q) → keeps (bind m k) Q.
Proof.
  intros Hm Hk w. unfold bind. destruct (Hm w) as [Hs Ha].
  destruct (m w) as [[a|e] w1]; simpl in *.
  - destruct (Hk a (Ha a eq_refl) w1) as [Hs' Hb]. split; [congruence | done].
  - split; [done|]. intros b [=].
Qed.

Lemma keeps_try_except {A} (m : M A) (h : exn → M A) (P : A → Prop) :
  keeps m P → (∀ e, keeps (h e) P) → keeps (try_except m h) P.
Proof.
  intros Hm Hh w. unfold try_except. destruct (Hm w) as [Hs Ha].
  destruct (m w) as [[a|e] w1]; simpl in *.
  - split; [done|]. intros a' [= <-]. by apply Ha.
  - destruct (Hh e w1) as [Hs' Hb]. split; [congruence | done].
Qed.

Lemma keeps_for_each {A T} (l : list A) (body : A → T → M T) (s : T)
    (P : T → Prop) :
  P s → (∀ x t, P t → keeps (body x t) P) → keeps (for_each l body s) P.
Proof.
  intros Hs Hbody. revert s Hs. induction l as [|x l IH]; intros s Hs; simpl.
  - by apply keeps_ret.
  - apply keeps_bind with (P := P); [by apply Hbody | done].
Qed.

(** One step of a proof of [keeps]. *)
Ltac keeps_step :=
  first
    [ apply keeps_ret
    | apply keeps_raise
    | eapply keeps_bind;
      [ first [ apply keeps_log | apply keeps_now | apply keeps_get_self
              | apply keeps_lift ]
      | intros ? _ ] ].

Lemma keeps_len_recipients notification :
  keeps (len_recipients notification) (λ _, True).
Proof. unfold len_recipients. repeat keeps_step. apply keeps_lift. Qed.

Lemma keeps_len_endpoints webhook_config :
  keeps (len_endpoints webhook_config) (λ _, True).
Proof. unfold len_endpoints. repeat keeps_step. apply keeps_lift. Qed.

Lemma keeps_failed (text : string) (e : exn) :
  keeps (log ERROR text [PStr (exn_str e)];; ret (failed_result e))
    is_dict_value.
Proof. repeat keeps_step. done. Qed.

Lemma keeps_send_email notification :
  keeps (_send_email notification) is_dict_value.
Proof.
  unfold _send_email.
  apply keeps_try_except; [|intros e; apply keeps_failed].
  keeps_step.
  eapply keeps_bind; [apply keeps_len_recipients | intros ? _].
  repeat keeps_step.
  eapply keeps_bind.
  { apply keeps_for_each with (P := λ _, True); [done|].
    intros x t _. apply keeps_log. }
  intros ? _.
  eapply keeps_bind; [apply keeps_len_recipients | intros ? _].
  repeat keeps_step. done.
Qed.

Lemma keeps_send_sms notification :
  keeps (_send_sms notification) is_dict_value.
Proof.
  unfold _send_sms.
  apply keeps_try_except; [|intros e; apply keeps_failed].
  keeps_step.
  eapply keeps_bind; [apply keeps_len_recipients | intros ? _].
  keeps_step.
  eapply keeps_bind; [apply keeps_len_recipients | intros ? _].
  repeat keeps_step. done.
Qed.

Lemma keeps_send_slack notification :
  keeps (_send_slack notification) is_dict_value.
Proof.
  unfold _send_slack.
  apply keeps_try_except; [|intros e; apply keeps_failed].
  repeat keeps_step. done.
Qed.

Lemma keeps_send_in_app notification :
  keeps (_send_in_app notification) is_dict_value.
Proof.
  unfold _send_in_app.
  apply keeps_try_except; [|intros e; apply keeps_failed].
  eapply keeps_bind; [apply keeps_len_recipients | intros ? _].
  keeps_step.
  eapply keeps_bind; [apply keeps_len_recipients | intros ? _].
  repeat keeps_step. done.
Qed.

Lemma keeps_send_webhook notification :
  keeps (_send_webhook notification) is_dict_value.
Proof.
  unfold _send_webhook.
  apply keeps_try_except; [|intros e; apply keeps_failed].
  keeps_step.
  eapply keeps_bind; [apply keeps_len_endpoints | intros ? _].
  keeps_step.
  eapply keeps_bind; [apply keeps_len_endpoints | intros ? _].
  repeat keeps_step. done.
Qed.

Lemma keeps_send_via_channel notification channel :
  keeps (_send_via_channel notification channel) is_dict_value.
Proof.
  unfold _send_via_channel. keeps_step.
  unfold channel_handlers, handlers_get.
  destruct (key_eqb _ channel); [apply keeps_send_email|].
  destruct (key_eqb _ channel); [apply keeps_send_sms|].
  destruct (key_eqb _ channel); [apply keeps_send_slack|].
  destruct (key_eqb _ channel); [apply keeps_send_in_app|].
  destruct (key_eqb _ channel); [apply keeps_send_webhook|].
  apply keeps_raise.
Qed.


(** *** [send_notification] *)

Lemma validate_valid (notification : pydict) (w : world NotificationService) :
  valid_notification notification = true →
  _validate_notification notification w = (Ok tt, w).
Proof.
  unfold valid_notification, _validate_notification, has_key.
  intros (((H1 & H2)%andb_true_iff & H3)%andb_true_iff & H4)%andb_true_iff.
  unfold bind, check_required, has_key, lift, subscript.
  destruct (dict_lookup notification (PStr "recipients")); [|done].
  destruct (dict_lookup notification (PStr "subject")); [|done].
  destruct (dict_lookup notification (PStr "content")); [|done].
  simpl in *. by rewrite H4.
Qed.

Lemma validate_invalid (notification : pydict)
    (w : world NotificationService) :
  valid_notification notification = false →
  ∃ msg,
    _validate_notification notification w
    = (Raise (NotificationServiceError msg), w).
Proof.
  unfold valid_notification, _validate_notification, has_key.
  unfold bind, check_required, has_key, lift, subscript, raise.
  destruct (dict_lookup notification (PStr "recipients")); simpl;
    [|by eexists].
  destruct (dict_lookup notification (PStr "subject")); simpl; [|by eexists].
  destruct (dict_lookup notification (PStr "content")); simpl; [|by eexists].
  intros ->. simpl. by eexists.
Qed.

Lemma check_hashable_ok {St} (v : pyval) (w : world St) :
  hashable v = true → lift (check_hashable v) w = (Ok tt, w).
Proof. unfold lift, check_hashable. by intros ->. Qed.

Lemma send_one_hashable (notification : pydict) (channel : pyval)
    (results : pydict) (w : world NotificationService) :
  hashable channel = true →
  Forall is_dict_value (results.*2) →
  ∃ results' w',
    send_one notification channel results w = (Ok results', w') ∧
    w_self w' = w_self w ∧
    Forall is_dict_value (results'.*2).
Proof.
  intros Hh Hd. unfold send_one.
  rewrite (bind_ok _ _ _ _ _ (get_self_spec _)).
  rewrite (bind_ok _ _ _ _ _ (check_hashable_ok _ _ Hh)).
  destruct (negb (key_elem channel (enabled_channels (w_self w)))).
  - rewrite (bind_ok _ _ _ _ _ (log_spec _ _ _ _)). unfold ret.
    eexists _, _. split; [reflexivity|]. split; [done|].
    by apply dict_set_values.
  - unfold try_except, bind.
    destruct (keeps_send_via_channel notification channel w) as [Hs Hr].
    destruct (_send_via_channel notification channel w) as [[r|e] w1];
      simpl in *.
    + eexists _, _. split; [reflexivity|]. split; [done|].
      apply dict_set_values; [done | by apply Hr].
    + eexists _, _. split; [reflexivity|]. split; [done|].
      by apply dict_set_values.
Qed.

Lemma send_one_unhashable (notification : pydict) (channel : pyval)
    (results : pydict) (w : world NotificationService) :
  hashable channel = false →
  ∃ e, send_one notification channel results w = (Raise e, w).
Proof.
  intros Hh. unfold send_one.
  rewrite (bind_ok _ _ _ _ _ (get_self_spec _)).
  unfold bind, lift, check_hashable. rewrite Hh. by eexists.
Qed.

Lemma send_loop_spec (notification : pydict) (channels : list pyval)
    (results : pydict) (w : world NotificationService) :
  Forall is_dict_value (results.*2) →
  ∃ w', w_self w' = w_self w ∧
    if forallb hashable channels then
      ∃ results',
        for_each channels (send_one notification) results w
        = (Ok results', w') ∧
        Forall is_dict_value (results'.*2)
    else
      ∃ e, for_each channels (send_one notification) results w
           = (Raise e, w').
Proof.
  revert results w. induction channels as [|c cs IH]; intros results w Hd.
  - exists w. split; [done|]. simpl. by exists results.
  - simpl. destruct (hashable c) eqn:Hh; simpl.
    + destruct (send_one_hashable notification c results w Hh Hd)
        as (results1 & w1 & E1 & Hs1 & Hd1).
      destruct (IH results1 w1 Hd1) as (w' & Hs' & Hrest).
      exists w'. split; [congruence|].
      by rewrite (bind_ok _ _ _ _ _ E1).
    + destruct (send_one_unhashable notification c results w Hh) as [e E].
      exists w. split; [done|]. exists e.
      by rewrite (bind_raise _ _ _ _ _ E).
Qed.

Lemma any_success_dicts (values : list pyval) :
  Forall is_dict_value values → ∃ b, any_success values = Ok b.
Proof.
  induction 1 as [|v vs Hv _ [b IH]]; simpl; [by eexists|].
  destruct v; try discriminate. simpl.
  destruct (eq_str _ _); by eexists.
Qed.

Lemma channels_of_set (notification : pydict) (k : string) (v : pyval) :
  k ≠ "channels" →
  channels_of (dict_set notification (PStr k) v) = channels_of notification.
Proof. intros Hk. unfold channels_of. by rewrite dict_lookup_set_ne. Qed.


End notification.

(** *** The properties at sample inputs *)

(** On the default service every channel succeeds, 'slack' and
    'webhook' included. *)
Lemma send_via_channel_success_witness :
  dict_lookup sample_notification (PStr "recipients")
  = Some (PList [PStr "auditor@company.com"]) ∧
  "slack" ∈ Notification.channel_names ∧
  ("slack" = "slack" →
   Notification.slack_config_ok (w_self default_notifier) = true) ∧
  ("slack" = "webhook" →
   Notification.webhook_config_ok (w_self default_notifier) = true) ∧
  ∃ handler r lg,
    Notification.handlers_get (@Notification.channel_handlers sample_lib)
      (PStr "slack") = Some handler ∧
    @Notification._send_via_channel sample_lib sample_notification
      (PStr "slack") default_notifier
    = handler sample_notification default_notifier ∧
    handler sample_notification default_notifier
    = (Ok r, advance default_notifier 1 lg) ∧
    Notification.succeeded r ∧ Notification.no_error lg.
Proof.
  assert (dict_lookup sample_notification (PStr "recipients")
          = Some (PList [PStr "auditor@company.com"])) as H1 by reflexivity.
  assert ("slack" ∈ Notification.channel_names) as H2.
  { unfold Notification.channel_names. simpl. set_solver. }
  assert ("slack" = "slack" →
          Notification.slack_config_ok (w_self default_notifier) = true)
    as H3 by (intros _; reflexivity).
  assert ("slack" = "webhook" →
          Notification.webhook_config_ok (w_self default_notifier) = true)
    as H4 by (intros [=]).
  split; [exact H1|]. split; [exact H2|]. split; [exact H3|].
  split; [exact H4|].
  exact (@send_via_channel_success sample_lib sample_notification _ "slack"
           default_notifier H1 H2 H3 H4).
Defined.

(** C4, as stated, fails on a service configured with
    [{'slack': None}]: the notification has a recipients list and
    'slack' is one of the five channels, yet the handler takes its
    failure branch and the status is 'failed'. *)
Lemma send_slack_fails_without_config :
  dict_lookup sample_notification (PStr "recipients")
  = Some (PList [PStr "auditor@company.com"]) ∧
  "slack" ∈ Notification.channel_names ∧
  ∃ d,
    (@Notification._send_via_channel sample_lib sample_notification
       (PStr "slack") notifier_without_slack).1 = Ok (PDict d) ∧
    dict_lookup d (PStr "status") = Some (PStr "failed") ∧
    dict_lookup d (PStr "status") ≠ Some (PStr "success").
Proof.
  split; [reflexivity|]. split.
  { unfold Notification.channel_names. simpl. set_solver. }
  eexists. split; [reflexivity|]. split; [reflexivity | discriminate].
Qed.


(** * Further properties *)

(** ** [ComplianceService]: what a call computes *)

Section compliance_results.
Context `{PyLib}.
Import Compliance.

Lemma loop_result (data : pyval) (fws : list string)
    (st : compliance_results * Q) (w : world ComplianceService) :
  ∃ lg,
    for_each fws (check_one data) st w
    = (Ok (set_framework_results st.1
             (results_after data (supported_of (w_self w) fws)
                (framework_results st.1)),
           total_after data (supported_of (w_self w) fws) st.2),
       advance w 0 lg).
Proof.
  revert st w. induction fws as [|f fws IH]; intros [r tot] w.
  - exists []. simpl. unfold ret.
    by rewrite advance_0_nil, set_framework_results_id.
  - simpl. unfold check_one at 1. unfold bind at 1 2, get_self. simpl.
    unfold supported_of. rewrite filter_cons.
    case_bool_decide as Hin.
    + rewrite decide_True by done.
      unfold _check_framework_compliance, bind, log, ret. simpl.
      fold (check_of data f).
      match goal with |- context [for_each fws _ ?st ?w1] =>
        destruct (IH st w1) as [lg E] end.
      simpl in E. unfold supported_of in E. rewrite E.
      eexists. unfold advance. simpl. rewrite <- app_assoc. reflexivity.
    + rewrite decide_False by done.
      unfold log, ret. simpl.
      match goal with |- context [for_each fws _ ?st ?w1] =>
        destruct (IH st w1) as [lg E] end.
      simpl in E. unfold supported_of in E. rewrite E.
      eexists. unfold advance. simpl. rewrite <- app_assoc. reflexivity.
Qed.


Lemma results_after_lookup (data : pyval) (l : list string)
    (fr : gmap string framework_result) (f : string) :
  results_after data l fr !! f
  = if decide (f ∈ l) then Some (check_of data f) else fr !! f.
Proof.
  unfold results_after. revert fr. induction l as [|g l IH]; intros fr; simpl.
  - destruct (decide (f ∈ [])) as [Hin|]; [by apply elem_of_nil in Hin | done].
  - rewrite IH.
    destruct (decide (f ∈ l)) as [Hl|Hl],
             (decide (f ∈ g :: l)) as [Hgl|Hgl]; try done.
    + exfalso. apply Hgl. set_solver.
    + destruct (decide (g = f)) as [->|Hne].
      * by rewrite lookup_insert_eq.
      * exfalso. set_solver.
    + destruct (decide (g = f)) as [->|Hne].
      * exfalso. set_solver.
      * by rewrite lookup_insert_ne.
Qed.

Lemma results_after_dom (data : pyval) (l : list string)
    (fr : gmap string framework_result) :
  dom (results_after data l fr) = list_to_set l ∪ dom fr.
Proof.
  apply set_eq. intros f. rewrite elem_of_dom, results_after_lookup.
  rewrite elem_of_union, elem_of_list_to_set, elem_of_dom.
  destruct (decide (f ∈ l)); naive_solver.
Qed.

(** The whole of a freshly computed result. *)
Lemma compute_results_fields (data : pyval) (fws : list string)
    (w : world ComplianceService) :
  ∃ r lg,
    compute_results data fws w = (Ok r, advance w 1 lg) ∧
    frameworks_checked r = fws ∧
    issues r = [] ∧
    framework_results r
    = results_after data (supported_of (w_self w) fws) ∅ ∧
    compliance_score r
    = (if bool_decide (framework_results r = ∅) then 0%Q
       else (total_after data (supported_of (w_self w) fws) 0
             / inject_Z (Z.of_nat (size (framework_results r))))%Q) ∧
    overall_status r = _determine_overall_status (compliance_score r) ∧
    recommendations r
    = if Qle_bool (80 # 100) (compliance_score r) then []
      else ["Implement additional security controls";
            "Enhance documentation processes";
            "Conduct regular compliance training"].
Proof.
  unfold compute_results.
  rewrite (bind_ok _ _ _ _ _ (now_spec w)).
  match goal with |- context [for_each fws _ ?st] =>
    destruct (loop_result data fws st (advance w 1 [])) as [lg E] end.
  rewrite (bind_ok _ _ _ _ _ E), advance_advance. unfold ret.
  eexists _, _. split; [reflexivity|]. simpl.
  case_bool_decide as Hempty; simpl.
  - rewrite Hempty.
    repeat split; try done;
      unfold _generate_compliance_recommendations; simpl;
      by destruct (Qle_bool _ _).
  - repeat split; try done;
      [by rewrite bool_decide_eq_false_2|];
      unfold _generate_compliance_recommendations; simpl;
      by destruct (Qle_bool _ _).
Qed.

(** On a service made by [__init__] every call returns such a result. *)
Lemma reachable_result (data : pyval) (frameworks : option (list string))
    (w : world ComplianceService) :
  reachable w →
  ∃ r w',
    check_compliance data frameworks w = (Ok r, w') ∧
    w_self w' = w_self w ∧
    frameworks_checked r = effective_frameworks (w_self w) frameworks ∧
    issues r = [] ∧
    framework_results r
    = results_after data
        (supported_of (w_self w)
           (effective_frameworks (w_self w) frameworks)) ∅ ∧
    compliance_score r
    = (if bool_decide (framework_results r = ∅) then 0%Q
       else (total_after data
               (supported_of (w_self w)
                  (effective_frameworks (w_self w) frameworks)) 0
             / inject_Z (Z.of_nat (size (framework_results r))))%Q) ∧
    overall_status r = _determine_overall_status (compliance_score r) ∧
    recommendations r
    = if Qle_bool (80 # 100) (compliance_score r) then []
      else ["Implement additional security controls";
            "Enhance documentation processes";
            "Conduct regular compliance training"].
Proof.
  intros Hr.
  destruct (reachable_recomputes data frameworks w Hr)
    as (r & lg & E & _ & Hrun).
  destruct (compute_results_fields data
              (effective_frameworks (w_self w) frameworks)
              (advance w 0 [log_checking (w_self w) frameworks]))
    as (r' & lg' & E' & Hfields).
  rewrite E in E'. injection E' as <- _.
  exists r. eexists. split; [exact Hrun|]. split; [done|]. exact Hfields.
Qed.





(** *** The score *)

Lemma check_score_range (data : pyval) (f : string) :
  (1 # 2 <= fr_score (check_of data f) <= 9 # 10)%Q.
Proof.
  unfold check_of. rewrite framework_checks_lookup.
  repeat case_decide; simpl; split; unfold Qle; simpl; lia.
Qed.

Lemma total_after_range (data : pyval) (l : list string) (t : Q) :
  (t + (1 # 2) * inject_Z (Z.of_nat (length l))
   <= total_after data l t
   <= t + (9 # 10) * inject_Z (Z.of_nat (length l)))%Q.
Proof.
  unfold total_after. revert t. induction l as [|f l IH]; intros t.
  - cbn [foldl length]. change (inject_Z (Z.of_nat 0)) with 0%Q. lra.
  - cbn [foldl length]. rewrite Nat2Z.inj_succ.
    unfold Z.succ. rewrite inject_Z_plus.
    pose proof (check_score_range data f) as Hf.
    pose proof (IH (t + fr_score (check_of data f))%Q) as Hl.
    change (inject_Z 1) with 1%Q. lra.
Qed.

Lemma results_after_size (data : pyval) (l : list string) :
  NoDup l → size (results_after data l ∅) = length l.
Proof.
  intros Hnd. rewrite <- size_dom, results_after_dom, dom_empty_L.
  rewrite (right_id_L ∅ (∪)). by apply size_list_to_set.
Qed.



End compliance_results.

(** ** [ComplianceService.generate_compliance_report] *)

Section compliance_report.
Context `{PyLib}.
Import Compliance.

Lemma critical_issues_dicts (issues : list pyval) :
  forallb is_dictionary issues = true →
  ∃ critical, critical_issues issues = Ok critical.
Proof.
  induction issues as [|i issues IH]; simpl; [by eexists|].
  intros [Hi Hrest]%andb_true_iff. destruct (IH Hrest) as [rest ->].
  destruct i; try discriminate. simpl. by eexists.
Qed.

Lemma critical_issues_not_dicts (issues : list pyval) :
  forallb is_dictionary issues = false →
  ∃ e, critical_issues issues = Raise e.
Proof.
  induction issues as [|i issues IH]; simpl; [discriminate|].
  destruct i; simpl; try by eexists.
  intros Hrest. destruct (IH Hrest) as [e ->]. by eexists.
Qed.

Lemma create_executive_summary_outcome (compliance_data : pyval) :
  match _create_executive_summary compliance_data with
  | Ok _ => summary_ok compliance_data = true
  | Raise _ => summary_ok compliance_data = false
  end.
Proof.
  unfold _create_executive_summary, summary_ok.
  destruct compliance_data as [| | | | | |d]; try done. simpl.
  destruct (default (PDict []) (dict_lookup d (PStr "framework_results")))
    as [| | | | | |]; simpl; try done;
    (destruct (iterate (default (PList []) (dict_lookup d (PStr "issues"))))
       as [issues|]; [|done];
     destruct (forallb is_dictionary issues) eqn:Hd;
     [destruct (critical_issues_dicts _ Hd) as [? ->]
     |destruct (critical_issues_not_dicts _ Hd) as [? ->]]; done).
Qed.

(** X5.  [generate_compliance_report] returns a report exactly when the
    compliance data is a dictionary whose 'framework_results' has a
    length and whose 'issues' are dictionaries; otherwise it raises
    [ComplianceServiceError].  A report carries the data unchanged under
    'detailed_findings' and the format as given; it has a 'pdf_path'
    exactly when the format is 'pdf' in any letter case, an
    'html_content' exactly when it is 'html' in any letter case.  The
    service is never changed. *)
Theorem generate_compliance_report_outcome (compliance_data : pyval)
    (report_format : string) (w : world ComplianceService) :
  match generate_compliance_report compliance_data report_format w with
  | (Ok report, w') =>
      summary_ok compliance_data = true ∧
      w_self w' = w_self w ∧
      dict_lookup report (PStr "detailed_findings") = Some compliance_data ∧
      dict_lookup report (PStr "report_format") = Some (PStr report_format) ∧
      has_key report "pdf_path" = String.eqb (lower report_format) "pdf" ∧
      has_key report "html_content"
      = String.eqb (lower report_format) "html"
  | (Raise e, w') =>
      summary_ok compliance_data = false ∧
      (∃ msg, e = ComplianceServiceError msg) ∧
      w_self w' = w_self w
  end.
Proof.
  unfold generate_compliance_report, try_except.
  rewrite (bind_ok _ _ _ _ _ (log_spec _ _ _ _)).
  rewrite (bind_ok _ _ _ _ _ (now_spec _)).
  rewrite (bind_ok _ _ _ _ _ (now_spec _)).
  pose proof (create_executive_summary_outcome compliance_data) as Hsum.
  destruct (_create_executive_summary compliance_data) as [summary|e].
  - unfold bind at 1, lift at 1.
    unfold _extract_action_items. unfold bind at 1 2. rewrite now_spec.
    unfold ret at 1.
    destruct (String.eqb (lower report_format) "pdf") eqn:Hpdf.
    + assert (String.eqb (lower report_format) "html" = false) as Hhtml.
      { apply String.eqb_eq in Hpdf as ->. reflexivity. }
      unfold bind, lift, _generate_pdf_report, subscript, log, ret. simpl.
      by rewrite Hhtml.
    + destruct (String.eqb (lower report_format) "html") eqn:Hhtml;
        unfold bind, log, ret; simpl; done.
  - unfold bind at 1, lift at 1. unfold bind, log, raise. simpl.
    split; [done|]. split; [by eexists | done].
Qed.

End compliance_report.

(** ** [NotificationService]: the records of the history *)

Section notification_history.
Context `{PyLib}.
Import Notification.

Lemma dict_lookup_set_eq (d : pydict) (s : string) (v : pyval) :
  dict_lookup (dict_set d (PStr s) v) (PStr s) = Some v.
Proof.
  induction d as [|[k x] d IH]; simpl.
  - by rewrite String.eqb_refl.
  - destruct (key_eqb k (PStr s)) eqn:E; simpl; by rewrite E.
Qed.

Lemma has_key_set_eq (d : pydict) (s : string) (v : pyval) :
  has_key (dict_set d (PStr s) v) s = true.
Proof. unfold has_key. by rewrite dict_lookup_set_eq. Qed.

Lemma has_key_set_ne (d : pydict) (s t : string) (v : pyval) :
  s ≠ t → has_key (dict_set d (PStr s) v) t = has_key d t.
Proof. intros Hne. unfold has_key. by rewrite dict_lookup_set_ne. Qed.

Lemma valid_notification_set (d : pydict) (s : string) (v : pyval) :
  s ≠ "recipients" → s ≠ "subject" → s ≠ "content" →
  valid_notification (dict_set d (PStr s) v) = valid_notification d.
Proof.
  intros H1 H2 H3. unfold valid_notification.
  by rewrite !has_key_set_ne, dict_lookup_set_ne.
Qed.

Lemma channels_ok_set (d : pydict) (s : string) (v : pyval) :
  s ≠ "channels" → channels_ok (dict_set d (PStr s) v) = channels_ok d.
Proof. intros Hs. unfold channels_ok. by rewrite channels_of_set. Qed.

(** [any] finds a success exactly when there is one. *)
Lemma any_success_spec (values : list pyval) (b : bool) :
  any_success values = Ok b →
  (b = true ↔ Exists succeeded values).
Proof.
  revert b. induction values as [|v values IH]; intros b; simpl.
  - intros [= <-]. split; [done | by intros ?%Exists_nil].
  - destruct v; simpl; try discriminate.
    destruct (eq_str _ _) eqn:Hs.
    + intros [= <-]. split; [|done]. intros _. apply Exists_cons_hd.
      eexists. split; [reflexivity|].
      unfold eq_str in Hs.
      destruct (dict_lookup d (PStr "status")) as [st|] eqn:Hl; simpl in Hs;
        [|done].
      by apply key_eqb_str in Hs as ->.
    + intros Hrest. rewrite (IH b Hrest). split.
      * by apply Exists_cons_tl.
      * intros [Hv|Ht]%Exists_cons; [|done].
        destruct Hv as (d' & [= <-] & Hst). unfold eq_str in Hs.
        rewrite Hst in Hs. simpl in Hs. discriminate.
Qed.

(** What a call does: the record a successful call builds and appends;
    no change of the service when it raises. *)
Lemma send_notification_effect (notification : pydict)
    (w : world NotificationService) :
  match send_notification notification w with
  | (Ok sent, w') =>
      valid_notification notification = true ∧
      channels_ok notification = true ∧
      sent_notifications (w_self w')
      = sent_notifications (w_self w) ++ [sent] ∧
      ∃ n1 results b t,
        valid_notification n1 = valid_notification notification ∧
        channels_ok n1 = channels_ok notification ∧
        has_key n1 "id" = true ∧ has_key n1 "created_at" = true ∧
        (∀ k, k ≠ "id" → k ≠ "created_at" → k ≠ "status" →
              dict_lookup n1 (PStr k) = dict_lookup notification (PStr k)) ∧
        any_success (results.*2) = Ok b ∧
        sent = dict_set
                 (dict_set
                    (dict_set n1 (PStr "status")
                       (PStr (if b then "sent" else "failed")))
                    (PStr "results") (PDict results))
                 (PStr "sent_at") (PStr (isoformat t)) ∧
        ∃ channels w0 w1,
          iterate (channels_of notification) = Ok channels ∧
          w_self w0 = w_self w ∧
          for_each channels (send_one n1) [] w0 = (Ok results, w1)
  | (Raise e, w') =>
      w_self w' = w_self w ∧
      valid_notification notification && channels_ok notification = false
  end.
Proof.
  unfold send_notification, try_except.
  destruct (valid_notification notification) eqn:Hvalid.
  - rewrite (bind_ok _ _ _ _ _ (validate_valid _ w Hvalid)).
    rewrite (bind_ok _ _ _ _ _ (now_spec _)).
    rewrite (bind_ok _ _ _ _ _ (now_spec _)).
    rewrite (bind_ok _ _ _ _ _ (log_spec _ _ _ _)).
    rewrite !advance_advance.
    set (n1 := dict_set (dict_set (dict_set notification _ _) _ _)
                 (PStr "status") (PStr "pending")).
    change (default (PList []) (dict_lookup n1 (PStr "channels")))
      with (channels_of n1).
    assert (channels_of n1 = channels_of notification) as Hch.
    { unfold n1. by rewrite !channels_of_set. }
    rewrite Hch. unfold channels_ok.
    destruct (iterate (channels_of notification)) as [channels|e] eqn:Hit.
    + rewrite (bind_ok _ _ _ _ _ (lift_ok _ _ _ eq_refl)).
      match goal with |- context [bind (for_each channels _ ?r) _ ?w0] =>
        destruct (send_loop_spec n1 channels r w0 ltac:(constructor))
          as (w1 & Hs1 & Hloop) end.
      destruct (forallb hashable channels) eqn:Hhash.
      * destruct Hloop as (results & E & Hd).
        rewrite (bind_ok _ _ _ _ _ E).
        destruct (any_success_dicts _ Hd) as [b Hb].
        rewrite (bind_ok _ _ _ _ _ (lift_ok _ _ _ Hb)).
        rewrite (bind_ok _ _ _ _ _ (now_spec _)).
        rewrite (bind_ok _ _ _ _ _ (get_self_spec _)).
        unfold bind, put_self, log, ret. simpl.
        split; [done|]. split; [done|]. split; [by rewrite Hs1|].
        exists n1, results, b. eexists.
        split; [unfold n1; by rewrite !valid_notification_set|].
        split.
        { unfold n1, channels_ok. by rewrite !channels_of_set, Hit. }
        split.
        { unfold n1. rewrite 2!has_key_set_ne by done.
          apply has_key_set_eq. }
        split.
        { unfold n1. rewrite has_key_set_ne by done. apply has_key_set_eq. }
        split.
        { intros k Hid Hcr Hst. unfold n1.
          by rewrite !dict_lookup_set_ne by done. }
        split; [exact Hb|]. split; [reflexivity|].
        eexists channels, _, w1. split; [done|]. split; [|exact E]. done.
      * destruct Hloop as (e & E).
        rewrite (bind_raise _ _ _ _ _ E).
        unfold bind, log, raise. by simpl.
    + rewrite (bind_raise (lift (Raise e)) _ _ e _ eq_refl).
      unfold bind, log, raise. by simpl.
  - destruct (validate_invalid notification w Hvalid) as [msg E].
    rewrite (bind_raise _ _ _ _ _ E).
    unfold bind, log, raise. by simpl.
Qed.

Lemma sent_record (notification : pydict)
    (w : world NotificationService) (sent : pydict)
    (w' : world NotificationService) :
  send_notification notification w = (Ok sent, w') →
  record_ok sent ∧
  ∃ results,
    dict_lookup sent (PStr "results") = Some (PDict results) ∧
    (dict_lookup sent (PStr "status") = Some (PStr "sent")
     ↔ Exists succeeded (results.*2)).
Proof.
  intros E. pose proof (send_notification_effect notification w) as Heff.
  rewrite E in Heff.
  destruct Heff as (Hvalid & Hch & _ & n1 & results & b & t & Hv1 & Hc1 &
                    Hid & Hcreated & _ & Hany & -> & _).
  assert (dict_lookup
            (dict_set
               (dict_set
                  (dict_set n1 (PStr "status")
                     (PStr (if b then "sent" else "failed")))
                  (PStr "results") (PDict results))
               (PStr "sent_at") (PStr (isoformat t))) (PStr "status")
          = Some (PStr (if b then "sent" else "failed"))) as Hstatus.
  { rewrite 2!dict_lookup_set_ne by done. apply dict_lookup_set_eq. }
  split.
  - unfold record_ok. rewrite Hstatus.
    split; [destruct b; auto|].
    split; [by rewrite 3!has_key_set_ne by done|].
    split; [by rewrite 3!has_key_set_ne by done|].
    split; [rewrite has_key_set_ne by done; apply has_key_set_eq|].
    split; [apply has_key_set_eq|].
    split; [rewrite !valid_notification_set by done; congruence|].
    rewrite !channels_ok_set by done. congruence.
  - exists results. split.
    + rewrite dict_lookup_set_ne by done. apply dict_lookup_set_eq.
    + rewrite Hstatus, <- (any_success_spec _ _ Hany).
      destruct b; split; intros; congruence.
Qed.

Lemma history_records_ok_aux (w : world NotificationService) :
  reachable w → Forall record_ok (sent_notifications (w_self w)).
Proof.
  induction 1 as [config w0 | w notification Hr IH].
  - simpl. constructor.
  - pose proof (send_notification_effect notification w) as Heff.
    destruct (send_notification notification w) as [[sent|e] w'] eqn:E;
      simpl.
    + destruct Heff as (_ & _ & -> & _).
      apply Forall_app. split; [done|]. constructor; [|constructor].
      by apply (sent_record notification w sent w').
    + by rewrite (proj1 Heff).
Qed.

(** X6.  The notification [send_notification] returns is a finished
    record: its 'status' is 'sent' or 'failed', it has an 'id', a
    'created_at', a 'sent_at' and the 'results' of the channels, and the
    status is 'sent' exactly when one of these results has the status
    'success'. *)
Theorem send_notification_record (notification : pydict)
    (w : world NotificationService) (sent : pydict)
    (w' : world NotificationService) :
  send_notification notification w = (Ok sent, w') →
  record_ok sent ∧
  ∃ results,
    dict_lookup sent (PStr "results") = Some (PDict results) ∧
    (dict_lookup sent (PStr "status") = Some (PStr "sent")
     ↔ Exists succeeded (results.*2)).
Proof. apply sent_record. Qed.


(** X8.  [get_notification_history] returns the end of the history: for
    a positive limit the last [limit] records (all of them when there
    are fewer), for a negative limit everything but the first [-limit]
    records, and for the limit 0 the whole history, not the empty
    list. *)
Theorem get_notification_history_slice (limit : Z)
    (w : world NotificationService) :
  ∃ result,
    get_notification_history limit w = (Ok result, w) ∧
    (limit = 0 → result = sent_notifications (w_self w)) ∧
    (0 < limit →
     result = drop (length (sent_notifications (w_self w)) - Z.to_nat limit)
                (sent_notifications (w_self w)) ∧
     length result
     = Nat.min (Z.to_nat limit) (length (sent_notifications (w_self w)))) ∧
    (limit < 0 →
     result = drop (Z.to_nat (- limit)) (sent_notifications (w_self w))).
Proof.
  unfold get_notification_history, bind, get_self, ret, slice_from. simpl.
  set (sent := sent_notifications (w_self w)).
  eexists. split; [reflexivity|]. split; [|split].
  - intros ->. change (- 0 <? 0) with false. cbv iota.
    rewrite Z.min_l by lia. done.
  - intros Hpos. rewrite (proj2 (Z.ltb_lt _ _)) by lia.
    assert (Z.to_nat (Z.max (- limit + Z.of_nat (length sent)) 0)
            = (length sent - Z.to_nat limit)%nat) as -> by lia.
    split; [done|]. rewrite length_drop. lia.
  - intros Hneg. rewrite (proj2 (Z.ltb_ge _ _)) by lia.
    destruct (decide (- limit ≤ Z.of_nat (length sent))) as [Hle|Hgt].
    + by rewrite Z.min_l by lia.
    + rewrite Z.min_r by lia. rewrite !drop_ge; [done | lia | lia].
Qed.

Lemma set_update_hashable (s channels : list pyval) :
  forallb hashable channels = true → ∃ s', set_update s channels = Ok s'.
Proof.
  revert s. induction channels as [|c channels IH]; intros s; simpl.
  - by eexists.
  - intros [Hc Hrest]%andb_true_iff. unfold check_hashable. rewrite Hc.
    by apply IH.
Qed.

Lemma channels_used_ok (sent : list pydict) (s : list pyval) :
  Forall record_ok sent → ∃ used, channels_used sent s = Ok used.
Proof.
  intros Hall. revert s. induction Hall as [|n sent Hn _ IH]; intros s; simpl.
  - by eexists.
  - destruct Hn as (_ & _ & _ & _ & _ & _ & Hch).
    unfold channels_ok, channels_of in Hch.
    destruct (iterate _) as [channels|]; [|done].
    destruct (set_update_hashable s channels Hch) as [s' ->].
    apply IH.
Qed.

Lemma count_sent_range (sent : list pydict) :
  0 ≤ count_sent sent ≤ Z.of_nat (length sent).
Proof.
  unfold count_sent. pose proof (length_filter
    (λ n, eq_str (default PNone (dict_lookup n (PStr "status"))) "sent"
          = true) sent). lia.
Qed.



(** The result the loop records for a channel that is not enabled. *)
Lemma send_one_disabled (notification : pydict) (channel : pyval)
    (results : pydict) (w : world NotificationService) :
  hashable channel = true →
  key_elem channel (enabled_channels (w_self w)) = false →
  ∃ w', send_one notification channel results w
        = (Ok (dict_set results channel disabled_result), w') ∧
        w_self w' = w_self w.
Proof.
  intros Hh Hoff. unfold send_one.
  rewrite (bind_ok _ _ _ _ _ (get_self_spec _)).
  rewrite (bind_ok _ _ _ _ _ (check_hashable_ok _ _ Hh)).
  rewrite Hoff. simpl.
  rewrite (bind_ok _ _ _ _ _ (log_spec _ _ _ _)). unfold ret.
  by eexists.
Qed.

Lemma key_eqb_refl (k : pyval) : hashable k = true → key_eqb k k = true.
Proof.
  destruct k; simpl; try done; intros _.
  - by destruct b.
  - apply Qeq_bool_iff. reflexivity.
  - apply Qeq_bool_iff. reflexivity.
  - apply String.eqb_refl.
Qed.

Lemma dict_set_lookup_same (d : pydict) (k v : pyval) :
  hashable k = true → is_Some (dict_lookup (dict_set d k v) k).
Proof.
  intros Hk. induction d as [|[k' x] d IH]; simpl.
  - by rewrite key_eqb_refl.
  - destruct (key_eqb k' k) eqn:E; simpl; rewrite E; [done | exact IH].
Qed.

Lemma dict_set_lookup_keeps (d : pydict) (k v c : pyval) :
  is_Some (dict_lookup d c) → is_Some (dict_lookup (dict_set d k v) c).
Proof.
  induction d as [|[k' x] d IH]; simpl; [by intros [? [=]]|].
  destruct (key_eqb k' k); simpl; destruct (key_eqb k' c); auto.
Qed.

Lemma dict_lookup_value (d : pydict) (c v : pyval) :
  dict_lookup d c = Some v → v ∈ d.*2.
Proof.
  induction d as [|[k' x] d IH]; simpl; [done|].
  destruct (key_eqb k' c).
  - intros [= ->]. apply list_elem_of_here.
  - intros Hl. apply list_elem_of_further. by apply IH.
Qed.

Lemma disabled_loop (notification : pydict) (channels : list pyval) :
  ∀ (results results' : pydict) (w w' : world NotificationService),
  forallb hashable channels = true →
  Forall (λ c, key_elem c (enabled_channels (w_self w)) = false) channels →
  for_each channels (send_one notification) results w = (Ok results', w') →
  Forall (λ r, r = disabled_result) (results.*2) →
  Forall (λ r, r = disabled_result) (results'.*2) ∧
  (∀ c, c ∈ channels → is_Some (dict_lookup results' c)) ∧
  (∀ c, is_Some (dict_lookup results c) → is_Some (dict_lookup results' c)).
Proof.
  induction channels as [|c cs IH]; intros results results' w w' Hh Hoff.
  - simpl. unfold ret. intros [= <- <-] Hd. split; [done|].
    split; [by intros c ?%elem_of_nil | done].
  - simpl in Hh. apply andb_true_iff in Hh as [Hc Hcs].
    apply Forall_cons in Hoff as [Hoffc Hoffcs]. simpl.
    destruct (send_one_disabled notification c results w Hc Hoffc)
      as (w1 & E1 & Hs1).
    rewrite (bind_ok _ _ _ _ _ E1). intros Hloop Hd.
    rewrite <- Hs1 in Hoffcs.
    destruct (IH _ _ _ _ Hcs Hoffcs Hloop) as (Hvals & Hin & Hkeep).
    { by apply dict_set_values. }
    split; [done|]. split.
    + intros c' [->|Hc']%elem_of_cons; [|by apply Hin].
      apply Hkeep. by apply dict_set_lookup_same.
    + intros c' Hc'. apply Hkeep. by apply dict_set_lookup_keeps.
Qed.

Lemma any_success_disabled (values : list pyval) :
  Forall (λ r, r = disabled_result) values → any_success values = Ok false.
Proof. induction 1 as [|v vs -> _ IH]; simpl; done. Qed.



(** *** Channels that deliver *)

(** The channels whose handlers need a list of recipients only. *)
Lemma send_via_plain_channel (notification : pydict)
    (recipients : list pyval) (c : string) (w : world NotificationService) :
  dict_lookup notification (PStr "recipients") = Some (PList recipients) →
  c ∈ ["email"; "sms"; "in_app"] →
  ∃ r w', _send_via_channel notification (PStr c) w = (Ok r, w') ∧
          succeeded r.
Proof.
  intros Hrec Hc. unfold _send_via_channel.
  rewrite (bind_ok _ _ _ _ _ (check_hashable_ok (PStr c) w eq_refl)).
  repeat (apply elem_of_cons in Hc as [->|Hc]); [| | |by apply elem_of_nil in Hc];
    simpl.
  - destruct (send_email_success notification recipients w Hrec)
      as (r & lg & E & Hr & _). by exists r, (advance w 1 lg).
  - destruct (send_sms_success notification recipients w Hrec)
      as (r & lg & E & Hr & _). by exists r, (advance w 1 lg).
  - destruct (send_in_app_success notification recipients w Hrec)
      as (r & lg & E & Hr & _). by exists r, (advance w 1 lg).
Qed.

(** One turn of the loop stores a result under the channel; for an
    enabled channel with a plain handler the result is a success. *)
Lemma send_one_shape (notification : pydict) (recipients : list pyval)
    (c : string) (channel : pyval) (results : pydict)
    (w : world NotificationService) :
  dict_lookup notification (PStr "recipients") = Some (PList recipients) →
  c ∈ ["email"; "sms"; "in_app"] →
  key_elem (PStr c) (enabled_channels (w_self w)) = true →
  hashable channel = true →
  ∃ v w',
    send_one notification channel results w
    = (Ok (dict_set results channel v), w') ∧
    w_self w' = w_self w ∧
    (channel = PStr c → succeeded v).
Proof.
  intros Hrec Hc Hon Hh. unfold send_one.
  rewrite (bind_ok _ _ _ _ _ (get_self_spec _)).
  rewrite (bind_ok _ _ _ _ _ (check_hashable_ok _ _ Hh)).
  destruct (key_elem channel (enabled_channels (w_self w))) eqn:Hch; simpl.
  - unfold try_except, bind.
    destruct (keeps_send_via_channel notification channel w) as [Hs _].
    destruct (_send_via_channel notification channel w) as [[r|e] w1] eqn:E;
      simpl in *.
    + eexists _, _. split; [reflexivity|]. split; [done|].
      intros ->.
      destruct (send_via_plain_channel notification recipients c w Hrec Hc)
        as (r' & w' & E' & Hr'). congruence.
    + eexists _, _. split; [reflexivity|]. split; [done|].
      intros ->.
      destruct (send_via_plain_channel notification recipients c w Hrec Hc)
        as (r' & w' & E' & Hr'). congruence.
  - rewrite (bind_ok _ _ _ _ _ (log_spec _ _ _ _)). unfold ret.
    eexists _, _. split; [reflexivity|]. split; [done|].
    intros ->. congruence.
Qed.

Lemma key_eqb_str_l (k : pyval) (s : string) :
  key_eqb (PStr s) k = true → k = PStr s.
Proof.
  destruct k; simpl; try discriminate.
  by intros ->%String.eqb_eq.
Qed.

Lemma dict_lookup_set_other (d : pydict) (k v : pyval) (s : string) :
  key_eqb k (PStr s) = false →
  dict_lookup (dict_set d k v) (PStr s) = dict_lookup d (PStr s).
Proof.
  intros Hne. induction d as [|[k' x] d IH]; simpl.
  - by rewrite Hne.
  - destruct (key_eqb k' k) eqn:E; simpl.
    + destruct (key_eqb k' (PStr s)) eqn:E'; [|done].
      apply key_eqb_str in E' as ->. apply key_eqb_str_l in E as ->.
      simpl in Hne. by rewrite String.eqb_refl in Hne.
    + by rewrite IH.
Qed.

(** The result stored under an enabled channel with a plain handler is
    a success when the loop ends. *)
Lemma delivering_loop (notification : pydict) (recipients : list pyval)
    (c : string) (channels : list pyval) :
  dict_lookup notification (PStr "recipients") = Some (PList recipients) →
  c ∈ ["email"; "sms"; "in_app"] →
  ∀ (results results' : pydict) (w w' : world NotificationService),
  key_elem (PStr c) (enabled_channels (w_self w)) = true →
  forallb hashable channels = true →
  for_each channels (send_one notification) results w = (Ok results', w') →
  (PStr c ∈ channels ∨
   ∃ r, dict_lookup results (PStr c) = Some r ∧ succeeded r) →
  ∃ r, dict_lookup results' (PStr c) = Some r ∧ succeeded r.
Proof.
  intros Hrec Hc.
  induction channels as [|ch cs IH]; intros results results' w w' Hon Hh.
  - simpl. unfold ret. intros [= <- <-] [Hin|Hgood]; [|done].
    by apply elem_of_nil in Hin.
  - simpl in Hh. apply andb_true_iff in Hh as [Hch Hcs]. simpl.
    destruct (send_one_shape notification recipients c ch results w
                Hrec Hc Hon Hch) as (v & w1 & E1 & Hs1 & Hv).
    rewrite (bind_ok _ _ _ _ _ E1). intros Hloop Hgood.
    rewrite <- Hs1 in Hon.
    apply (IH _ _ _ _ Hon Hcs Hloop).
    destruct (key_eqb ch (PStr c)) eqn:Heq.
    + apply key_eqb_str in Heq as ->. right. exists v.
      split; [apply dict_lookup_set_eq | by apply Hv].
    + destruct Hgood as [[<-|Hin]%elem_of_cons|Hgood].
      * simpl in Heq. by rewrite String.eqb_refl in Heq.
      * by left.
      * right. by rewrite dict_lookup_set_other.
Qed.

Lemma sent_when_enabled (notification : pydict) (recipients channels : list pyval)
    (c : string) (w : world NotificationService) :
  valid_notification notification = true →
  dict_lookup notification (PStr "recipients") = Some (PList recipients) →
  iterate (channels_of notification) = Ok channels →
  forallb hashable channels = true →
  c ∈ ["email"; "sms"; "in_app"] →
  PStr c ∈ channels →
  key_elem (PStr c) (enabled_channels (w_self w)) = true →
  ∃ sent w',
    send_notification notification w = (Ok sent, w') ∧
    dict_lookup sent (PStr "status") = Some (PStr "sent") ∧
    (∀ k, k ∉ ["id"; "created_at"; "status"; "results"; "sent_at"] →
          dict_lookup sent (PStr k) = dict_lookup notification (PStr k)) ∧
    sent_notifications (w_self w')
    = sent_notifications (w_self w) ++ [sent].
Proof.
  intros Hvalid Hrec Hit Hh Hc Hin Hon.
  pose proof (send_notification_effect notification w) as Heff.
  destruct (send_notification notification w) as [[sent|e] w'].
  - destruct Heff as (_ & _ & Happ & n1 & results & b & t & _ & _ & _ & _ &
                      Hsame & Hany & -> &
                      channels' & w0 & w1 & Hit' & Hs0 & Hloop).
    rewrite Hit in Hit'. injection Hit' as <-. rewrite <- Hs0 in Hon.
    assert (dict_lookup n1 (PStr "recipients") = Some (PList recipients))
      as Hrec1 by (by rewrite Hsame).
    destruct (delivering_loop n1 recipients c channels Hrec1 Hc
                [] results w0 w1 Hon Hh Hloop (or_introl Hin))
      as (r & Hr & Hsucc).
    assert (b = true) as ->.
    { apply (any_success_spec _ _ Hany). apply Exists_exists.
      exists r. split; [|done]. by apply (dict_lookup_value results (PStr c)). }
    eexists _, w'. split; [reflexivity|].
    split.
    { rewrite 2!dict_lookup_set_ne by done. apply dict_lookup_set_eq. }
    split; [|exact Happ].
    intros k Hk. rewrite 3!dict_lookup_set_ne by set_solver.
    apply Hsame; set_solver.
  - destruct Heff as [_ Hbad]. unfold channels_ok in Hbad.
    rewrite Hvalid, Hit, Hh in Hbad. discriminate.
Qed.


Lemma in_app_for_priority (priority : pyval) :
  PStr "in_app" ∈ _get_channels_for_priority priority ∧
  forallb hashable (_get_channels_for_priority priority) = true.
Proof.
  unfold _get_channels_for_priority.
  destruct (eq_str priority "critical"); [|destruct (eq_str priority "high")];
    simpl; (split; [set_solver | done]).
Qed.

Lemma format_audit_alert_spec (alert_data : pydict)
    (w : world NotificationService) :
  ∃ content,
    _format_audit_alert (PDict alert_data) w = (Ok content, advance w 1 []).
Proof.
  unfold _format_audit_alert.
  rewrite (bind_ok _ _ _ _ _
             (lift_ok (get_method (PDict alert_data) "type" _) _ w eq_refl)).
  rewrite (bind_ok _ _ _ _ _
             (lift_ok (get_method (PDict alert_data) "severity" _) _ w
                eq_refl)).
  rewrite (bind_ok _ _ _ _ _
             (lift_ok (get_method (PDict alert_data) "description" _) _ w
                eq_refl)).
  rewrite (bind_ok _ _ _ _ _ (now_spec _)). unfold ret. by eexists.
Qed.

(** X12.  On a service where 'in_app' is enabled (the default
    configuration enables it), [send_audit_alert] with an alert
    dictionary and a list of recipients that is not empty returns a
    notification of type 'audit_alert' with the status 'sent', for every
    priority: 'in_app' is among the channels of each priority.  Its
    channels are 'email', 'sms', 'slack' and 'in_app' for 'critical',
    'email' and 'in_app' for 'high', and 'in_app' alone for anything
    else. *)
Theorem send_audit_alert_sent (alert_data : pydict)
    (recipients : list pyval) (priority : pyval)
    (w : world NotificationService) :
  recipients ≠ [] →
  key_elem (PStr "in_app") (enabled_channels (w_self w)) = true →
  ∃ sent w',
    send_audit_alert (PDict alert_data) (PList recipients) priority w
    = (Ok sent, w') ∧
    dict_lookup sent (PStr "status") = Some (PStr "sent") ∧
    dict_lookup sent (PStr "type") = Some (PStr "audit_alert") ∧
    dict_lookup sent (PStr "priority") = Some priority ∧
    dict_lookup sent (PStr "data") = Some (PDict alert_data) ∧
    dict_lookup sent (PStr "channels")
    = Some (PList
              (if eq_str priority "critical"
               then [PStr "email"; PStr "sms"; PStr "slack"; PStr "in_app"]
               else if eq_str priority "high"
                    then [PStr "email"; PStr "in_app"]
                    else [PStr "in_app"])) ∧
    sent_notifications (w_self w')
    = sent_notifications (w_self w) ++ [sent].
Proof.
  intros Hne Hon. unfold send_audit_alert.
  rewrite (bind_ok _ _ _ _ _
             (lift_ok (get_method (PDict alert_data) "title" _) _ w eq_refl)).
  destruct (format_audit_alert_spec alert_data w) as [content Hcontent].
  rewrite (bind_ok _ _ _ _ _ Hcontent).
  match goal with |- context [send_notification ?n ?w0] =>
    set (notification := n); set (w1 := w0) end.
  destruct (in_app_for_priority priority) as [Hin Hh].
  destruct (sent_when_enabled notification recipients
              (_get_channels_for_priority priority) "in_app" w1)
    as (sent & w' & E & Hstatus & Hsame & Happ).
  - unfold valid_notification, notification. simpl.
    by destruct recipients.
  - reflexivity.
  - reflexivity.
  - exact Hh.
  - set_solver.
  - exact Hin.
  - exact Hon.
  - exists sent, w'. split; [exact E|]. split; [exact Hstatus|].
    split; [by rewrite Hsame by set_solver|].
    split; [by rewrite Hsame by set_solver|].
    split; [by rewrite Hsame by set_solver|].
    split; [|exact Happ].
    rewrite Hsame by set_solver. unfold notification. simpl.
    unfold _get_channels_for_priority.
    by destruct (eq_str priority "critical"), (eq_str priority "high").
Qed.


Lemma format_deadline_reminder_spec (deadline_info : pydict) (days_until : Z)
    (w : world NotificationService) :
  ∃ content,
    _format_deadline_reminder (PDict deadline_info) days_until w
    = (Ok content, w).
Proof.
  unfold _format_deadline_reminder.
  rewrite (bind_ok _ _ _ _ _
             (lift_ok (get_method (PDict deadline_info) "task_name" _) _ w
                eq_refl)).
  rewrite (bind_ok _ _ _ _ _
             (lift_ok (get_method (PDict deadline_info) "deadline_date" _) _ w
                eq_refl)).
  rewrite (bind_ok _ _ _ _ _
             (lift_ok (get_method (PDict deadline_info) "task_id" _) _ w
                eq_refl)).
  unfold ret. by eexists.
Qed.

(** X13.  [send_deadline_reminder] never sends below the priority
    'high': with at most one day left the reminder is 'critical' and
    goes to 'email', 'sms', 'slack' and 'in_app', otherwise it is 'high'
    and goes to 'email' and 'in_app'.  On a service where 'in_app' is
    enabled, with a dictionary of deadline information and a list of
    recipients that is not empty, the reminder is returned with the
    status 'sent', and its 'data' are the deadline information with
    'days_until' set to the number of days. *)
Theorem send_deadline_reminder_priority (deadline_info : pydict)
    (recipients : list pyval) (days_until : Z)
    (w : world NotificationService) :
  recipients ≠ [] →
  key_elem (PStr "in_app") (enabled_channels (w_self w)) = true →
  ∃ sent data w',
    send_deadline_reminder (PDict deadline_info) (PList recipients)
      days_until w = (Ok sent, w') ∧
    dict_lookup sent (PStr "status") = Some (PStr "sent") ∧
    dict_lookup sent (PStr "type") = Some (PStr "deadline_reminder") ∧
    dict_lookup sent (PStr "priority")
    = Some (PStr (if bool_decide (days_until ≤ 1)
                  then "critical" else "high")) ∧
    dict_lookup sent (PStr "channels")
    = Some (PList
              (if bool_decide (days_until ≤ 1)
               then [PStr "email"; PStr "sms"; PStr "slack"; PStr "in_app"]
               else [PStr "email"; PStr "in_app"])) ∧
    dict_lookup sent (PStr "data") = Some (PDict data) ∧
    dict_lookup data (PStr "days_until") = Some (PInt days_until) ∧
    (∀ k, k ≠ "days_until" →
          dict_lookup data (PStr k) = dict_lookup deadline_info (PStr k)) ∧
    sent_notifications (w_self w')
    = sent_notifications (w_self w) ++ [sent].
Proof.
  intros Hne Hon. unfold send_deadline_reminder.
  destruct (format_deadline_reminder_spec deadline_info days_until w)
    as [content Hcontent].
  rewrite (bind_ok _ _ _ _ _ Hcontent).
  rewrite (bind_ok _ _ _ _ _
             (lift_ok (with_days_until (PDict deadline_info) days_until) _ w
                eq_refl)).
  match goal with |- context [send_notification ?n w] =>
    set (notification := n) end.
  set (priority := PStr (if days_until <=? 1 then "critical" else "high"))
    in *.
  destruct (in_app_for_priority priority) as [Hin Hh].
  destruct (sent_when_enabled notification recipients
              (_get_channels_for_priority priority) "in_app" w)
    as (sent & w' & E & Hstatus & Hsame & Happ).
  - unfold valid_notification, notification. simpl.
    by destruct recipients.
  - reflexivity.
  - reflexivity.
  - exact Hh.
  - set_solver.
  - exact Hin.
  - exact Hon.
  - exists sent, (dict_set deadline_info (PStr "days_until")
                    (PInt days_until)), w'.
    split; [exact E|]. split; [exact Hstatus|].
    split; [by rewrite Hsame by set_solver|].
    split.
    { rewrite Hsame by set_solver. unfold notification, priority. simpl.
      case_bool_decide as Hd.
      - by rewrite (proj2 (Z.leb_le _ _) Hd).
      - by rewrite (proj2 (Z.leb_gt _ _)) by lia. }
    split.
    { rewrite Hsame by set_solver. unfold notification, priority. simpl.
      case_bool_decide as Hd.
      - by rewrite (proj2 (Z.leb_le _ _) Hd).
      - by rewrite (proj2 (Z.leb_gt _ _)) by lia. }
    split; [by rewrite Hsame by set_solver|].
    split; [apply dict_lookup_set_eq|].
    split; [|exact Happ].
    intros k Hk. by rewrite dict_lookup_set_ne.
Qed.

End notification_history.

(** ** [ComplianceService.validate_policy] *)

Section policy.
Context `{PyLib}.
Import Compliance.

(** X14.  [validate_policy] accepts every policy: whatever the policy
    data and the policy type are, it returns (it never raises) a result
    with 'is_valid' [True] and no violation, under the policy type it
    was given and stamped with the time of the call, and it leaves the
    service and its cache as they were. *)
Theorem validate_policy_accepts (policy_data policy_type : pyval)
    (w : world ComplianceService) :
  ∃ result w',
    validate_policy policy_data policy_type w = (Ok result, w') ∧
    w_self w' = w_self w ∧
    dict_lookup result (PStr "is_valid") = Some (PBool true) ∧
    dict_lookup result (PStr "violations") = Some (PList []) ∧
    dict_lookup result (PStr "policy_type") = Some policy_type ∧
    dict_lookup result (PStr "validated_at")
    = Some (PStr (isoformat (w_clock w (w_ticks w)))).
Proof.
  eexists _, _. split; [reflexivity|]. by repeat split.
Qed.

End policy.

(** ** [AIService]: what the analysis reads *)

Section ai_reads.
Context `{PyLib}.
Import AI.

(** X15.  [analyze_document] reads nothing of a document but its
    length: two documents whose lengths leave the same remainder modulo
    100 get the same analysis (risk score, findings, recommendations,
    confidence 0.85), and two documents of the same length also leave
    the same log. *)
Theorem analyze_document_reads_length (content1 content2 : string)
    (document_type : string) (w : world AIService) :
  Z.of_nat (String.length content1) mod 100
  = Z.of_nat (String.length content2) mod 100 →
  ∃ res w1 w2,
    analyze_document content1 document_type w = (Ok res, w1) ∧
    analyze_document content2 document_type w = (Ok res, w2) ∧
    (confidence res == 85 # 100)%Q ∧
    (String.length content1 = String.length content2 → w1 = w2).
Proof.
  intros Hmod.
  assert (_calculate_risk_score content1 = _calculate_risk_score content2)
    as Hscore.
  { unfold _calculate_risk_score. by rewrite Hmod. }
  unfold analyze_document, try_except, bind, log, now, ret. simpl.
  rewrite Hscore. eexists _, _, _. split; [reflexivity|].
  split; [reflexivity|]. split; [reflexivity|].
  by intros ->.
Qed.

(** X16.  [assess_risk] never reads its data: for any two inputs it
    returns the same assessment and leaves the same world, and the
    assessment always has the overall risk 'medium', three risk factors
    and the confidence 0.9. *)
Theorem assess_risk_fixed (data1 data2 : pyval) (w : world AIService) :
  assess_risk data1 w = assess_risk data2 w ∧
  ∃ res factors w',
    assess_risk data1 w = (Ok res, w') ∧
    w_self w' = w_self w ∧
    dict_lookup res (PStr "overall_risk") = Some (PStr "medium") ∧
    dict_lookup res (PStr "risk_factors") = Some (PList factors) ∧
    length factors = 3%nat ∧
    dict_lookup res (PStr "confidence") = Some (PFloat (9 # 10)).
Proof.
  split; [reflexivity|]. eexists _, _, _. split; [reflexivity|].
  by repeat split.
Qed.

End ai_reads.

(** ** [AuditLog.to_dict] *)

Section audit_to_dict.
Context `{PyLib}.
Import Audit.


End audit_to_dict.

(** ** The further properties at sample inputs *)




Lemma send_notification_record_witness :
  ∃ sent w',
    @Notification.send_notification sample_lib sample_notification
      default_notifier = (Ok sent, w') ∧
    Notification.record_ok sent ∧
    ∃ results,
      dict_lookup sent (PStr "results") = Some (PDict results) ∧
      (dict_lookup sent (PStr "status") = Some (PStr "sent")
       ↔ Exists Notification.succeeded (results.*2)).
Proof.
  pose (o := @Notification.send_notification sample_lib sample_notification
               default_notifier).
  assert (o = (Ok (match o.1 with Ok sent => sent | Raise _ => [] end), o.2))
    as H1 by (vm_compute; reflexivity).
  eexists _, _. split; [exact H1|].
  exact (@send_notification_record sample_lib sample_notification
           default_notifier _ _ H1).
Defined.





Lemma send_audit_alert_sent_witness :
  [PStr "auditor@company.com"] ≠ [] ∧
  key_elem (PStr "in_app")
    (Notification.enabled_channels (w_self default_notifier)) = true ∧
  ∃ sent w',
    @Notification.send_audit_alert sample_lib (PDict sample_alert)
      (PList [PStr "auditor@company.com"]) (PStr "critical") default_notifier
    = (Ok sent, w') ∧
    dict_lookup sent (PStr "status") = Some (PStr "sent") ∧
    dict_lookup sent (PStr "type") = Some (PStr "audit_alert") ∧
    dict_lookup sent (PStr "priority") = Some (PStr "critical") ∧
    dict_lookup sent (PStr "data") = Some (PDict sample_alert) ∧
    dict_lookup sent (PStr "channels")
    = Some (PList [PStr "email"; PStr "sms"; PStr "slack"; PStr "in_app"]) ∧
    Notification.sent_notifications (w_self w')
    = Notification.sent_notifications (w_self default_notifier) ++ [sent].
Proof.
  assert ([PStr "auditor@company.com"] ≠ []) as H1 by discriminate.
  assert (key_elem (PStr "in_app")
            (Notification.enabled_channels (w_self default_notifier)) = true)
    as H2 by reflexivity.
  split; [exact H1|]. split; [exact H2|].
  exact (@send_audit_alert_sent sample_lib sample_alert
           [PStr "auditor@company.com"] (PStr "critical") default_notifier
           H1 H2).
Defined.

Lemma analyze_document_reads_length_witness :
  Z.of_nat (String.length "ledger") mod 100
  = Z.of_nat (String.length long_document) mod 100 ∧
  ∃ res w1 w2,
    @AI.analyze_document sample_lib "ledger" "financial" default_ai_service
    = (Ok res, w1) ∧
    @AI.analyze_document sample_lib long_document "financial"
      default_ai_service = (Ok res, w2) ∧
    (AI.confidence res == 85 # 100)%Q ∧
    (String.length "ledger" = String.length long_document → w1 = w2).
Proof.
  assert (Z.of_nat (String.length "ledger") mod 100
          = Z.of_nat (String.length long_document) mod 100) as H1
    by reflexivity.
  split; [exact H1|].
  exact (@analyze_document_reads_length sample_lib "ledger" long_document
           "financial" default_ai_service H1).
Defined.

Lemma send_deadline_reminder_priority_witness :
  [PStr "auditor@company.com"] ≠ [] ∧
  key_elem (PStr "in_app")
    (Notification.enabled_channels (w_self default_notifier)) = true ∧
  ∃ sent data w',
    @Notification.send_deadline_reminder sample_lib (PDict sample_deadline)
      (PList [PStr "auditor@company.com"]) 1 default_notifier
    = (Ok sent, w') ∧
    dict_lookup sent (PStr "status") = Some (PStr "sent") ∧
    dict_lookup sent (PStr "type") = Some (PStr "deadline_reminder") ∧
    dict_lookup sent (PStr "priority") = Some (PStr "critical") ∧
    dict_lookup sent (PStr "channels")
    = Some (PList [PStr "email"; PStr "sms"; PStr "slack"; PStr "in_app"]) ∧
    dict_lookup sent (PStr "data") = Some (PDict data) ∧
    dict_lookup data (PStr "days_until") = Some (PInt 1) ∧
    (∀ k, k ≠ "days_until" →
          dict_lookup data (PStr k) = dict_lookup sample_deadline (PStr k)) ∧
    Notification.sent_notifications (w_self w')
    = Notification.sent_notifications (w_self default_notifier) ++ [sent].
Proof.
  assert ([PStr "auditor@company.com"] ≠ []) as H1 by discriminate.
  assert (key_elem (PStr "in_app")
            (Notification.enabled_channels (w_self default_notifier)) = true)
    as H2 by reflexivity.
  split; [exact H1|]. split; [exact H2|].
  exact (@send_deadline_reminder_priority sample_lib sample_deadline
           [PStr "auditor@company.com"] 1 default_notifier H1 H2).
Defined.
